(** * deepdict.settings: a shallow embedding of [Settings] and [Settings.Storage]

    The Python module keeps a tree of mutable mappings behind proxy objects
    ([Settings.Storage]) that alias each other.  The embedding therefore has an
    explicit object heap: every mapping and every proxy is a heap cell, values
    refer to cells by address, and every method is a function in a
    state-and-exception monad over that heap. *)

From Stdlib Require Import String Ascii List ZArith Bool Arith Lia.
Import ListNotations.
Open Scope string_scope.

(** ** Python string primitives used on keys *)

Module PyStr.

Definition dot : ascii := "."%char.

(** ["." in key] *)
Fixpoint has_dot (s : string) : bool :=
  match s with
  | EmptyString => false
  | String c r => if Ascii.eqb c dot then true else has_dot r
  end.

(** [key.split(".")]: the result is never empty. *)
Fixpoint split (s : string) : list string :=
  match s with
  | EmptyString => [EmptyString]
  | String c r =>
      if Ascii.eqb c dot then EmptyString :: split r
      else match split r with
           | [] => [String c EmptyString]
           | w :: ws => String c w :: ws
           end
  end.

(** ['.'.join(parts)] *)
Fixpoint join (parts : list string) : string :=
  match parts with
  | [] => EmptyString
  | [w] => w
  | w :: ws => w ++ String dot (join ws)
  end.

(** [key.split(".")[0]] *)
Definition head (key : string) : string := hd EmptyString (split key).

(** ['.'.join(key.split(".")[1:])] *)
Definition rest (key : string) : string := join (tl (split key)).

End PyStr.

(** ** Values, objects and the heap *)

Definition loc := nat.

Inductive value : Type :=
| VNone
| VBool (b : bool)
| VInt (z : Z)
| VStr (s : string)
| VRef (l : loc).

(** The instance dictionary of a [Settings.Storage] object.  Its four entries
    are created by [Storage.__init__]; [Storage.__setattr__] can overwrite any
    of them with an arbitrary value, so each field holds a [value]. *)
Record Storage_obj : Type := mkStorage {
  _Storage__storage : value;
  _Storage__parent : value;
  _Storage__parent_name : value;
  _Storage__readonly : value
}.

(** A heap cell: a plain [dict] / [OrderedDict] (insertion-ordered, unique
    keys) or a [Settings.Storage] proxy.  The [dict] part that [Storage]
    inherits is never written and stays empty, so it is not represented. *)
Inductive obj : Type :=
| ODict (es : list (string * value))
| OStorage (st : Storage_obj).

Definition heap := list obj.

Inductive exn : Type :=
| KeyError (arg : string)
| TypeError.

Definition read_only_msg : string := "The storage is read only".

(** Outcome of running a piece of code on a heap: normal return, a raised
    exception (with the heap as it is when the exception leaves), or [Stuck]
    when the code leaves the modelled fragment of Python (dangling address,
    a proxy whose private fields no longer hold what [__init__] put there). *)
Inductive outcome (A : Type) : Type :=
| Ret (a : A) (h : heap)
| Exc (e : exn) (h : heap)
| Stuck.
Arguments Ret {A} a h.
Arguments Exc {A} e h.
Arguments Stuck {A}.

Definition M (A : Type) : Type := heap -> outcome A.

Definition ret {A} (a : A) : M A := fun h => Ret a h.
Definition raise {A} (e : exn) : M A := fun h => Exc e h.
Definition stuck {A} : M A := fun _ => Stuck.

Definition bind {A B} (m : M A) (f : A -> M B) : M B :=
  fun h => match m h with
           | Ret a h' => f a h'
           | Exc e h' => Exc e h'
           | Stuck => Stuck
           end.

Notation "x <- m ;; k" := (bind m (fun x => k))
  (at level 61, m at next level, right associativity).
Notation "m ;;; k" := (bind m (fun _ => k))
  (at level 61, right associativity).

Definition hget (h : heap) (l : loc) : option obj := nth_error h l.

Fixpoint hset (h : heap) (l : loc) (o : obj) : heap :=
  match h, l with
  | [], _ => []
  | _ :: t, O => o :: t
  | x :: t, S l' => x :: hset t l' o
  end.

Definition alloc (o : obj) : M loc := fun h => Ret (List.length h) (h ++ [o])%list.

Definition load (l : loc) : M obj :=
  fun h => match hget h l with Some o => Ret o h | None => Stuck end.

Definition store (l : loc) (o : obj) : M unit :=
  fun h => match hget h l with Some _ => Ret tt (hset h l o) | None => Stuck end.

(** ** Plain mappings *)

Fixpoint dict_get (es : list (string * value)) (k : string) : option value :=
  match es with
  | [] => None
  | (k', v) :: t => if String.eqb k' k then Some v else dict_get t k
  end.

Definition dict_mem (es : list (string * value)) (k : string) : bool :=
  match dict_get es k with Some _ => true | None => false end.

(** [d[k] = v]: an existing key keeps its position, a new key goes last. *)
Fixpoint dict_set (es : list (string * value)) (k : string) (v : value)
  : list (string * value) :=
  match es with
  | [] => [(k, v)]
  | (k', v') :: t =>
      if String.eqb k' k then (k', v) :: t else (k', v') :: dict_set t k v
  end.

Fixpoint dict_del (es : list (string * value)) (k : string)
  : list (string * value) :=
  match es with
  | [] => []
  | (k', v') :: t => if String.eqb k' k then t else (k', v') :: dict_del t k
  end.

Definition dict_keys (es : list (string * value)) : list string := map fst es.

(** ** Operations on a built-in container

    These are the operations the proxy performs on its backing object and on
    its parent.  A plain mapping is handled as Python does; [None], booleans
    and integers raise [TypeError]; a string is searched by [in] and raises on
    subscription.  A proxy used as the backing object of another proxy is
    outside the modelled fragment. *)

Fixpoint is_substring (k s : string) : bool :=
  if String.prefix k s then true
  else match s with
       | EmptyString => false
       | String _ r => is_substring k r
       end.

(** [k in c] *)
Definition raw_contains (c : value) (k : string) : M bool :=
  match c with
  | VRef l =>
      o <- load l ;;
      match o with
      | ODict es => ret (dict_mem es k)
      | OStorage _ => stuck
      end
  | VStr s => ret (is_substring k s)
  | VNone | VBool _ | VInt _ => raise TypeError
  end.

(** [c[k]] *)
Definition raw_getitem (c : value) (k : string) : M value :=
  match c with
  | VRef l =>
      o <- load l ;;
      match o with
      | ODict es =>
          match dict_get es k with
          | Some v => ret v
          | None => raise (KeyError k)
          end
      | OStorage _ => stuck
      end
  | _ => raise TypeError
  end.

(** [c[k] = v] *)
Definition raw_setitem (c : value) (k : string) (v : value) : M unit :=
  match c with
  | VRef l =>
      o <- load l ;;
      match o with
      | ODict es => store l (ODict (dict_set es k v))
      | OStorage _ => stuck
      end
  | _ => raise TypeError
  end.

(** [del c[k]] *)
Definition raw_delitem (c : value) (k : string) : M unit :=
  match c with
  | VRef l =>
      o <- load l ;;
      match o with
      | ODict es =>
          if dict_mem es k then store l (ODict (dict_del es k))
          else raise (KeyError k)
      | OStorage _ => stuck
      end
  | _ => raise TypeError
  end.

(** [len(c)] *)
Definition raw_len (c : value) : M nat :=
  match c with
  | VRef l =>
      o <- load l ;;
      match o with
      | ODict es => ret (List.length es)
      | OStorage _ => stuck
      end
  | VStr s => ret (String.length s)
  | VNone | VBool _ | VInt _ => raise TypeError
  end.

Definition is_none (v : value) : bool :=
  match v with VNone => true | _ => false end.

(** ** [Settings.Storage] *)

Definition private_names : list string :=
  ["_Storage__storage"; "_Storage__parent";
   "_Storage__parent_name"; "_Storage__readonly"].

Definition is_private (key : string) : bool :=
  existsb (String.eqb key) private_names.

(** [self.__dict__[key] = value] for one of the four private names. *)
Definition set_field (st : Storage_obj) (key : string) (v : value)
  : Storage_obj :=
  if String.eqb key "_Storage__storage" then
    mkStorage v (_Storage__parent st) (_Storage__parent_name st)
              (_Storage__readonly st)
  else if String.eqb key "_Storage__parent" then
    mkStorage (_Storage__storage st) v (_Storage__parent_name st)
              (_Storage__readonly st)
  else if String.eqb key "_Storage__parent_name" then
    mkStorage (_Storage__storage st) (_Storage__parent st) v
              (_Storage__readonly st)
  else
    mkStorage (_Storage__storage st) (_Storage__parent st)
              (_Storage__parent_name st) v.

Definition load_storage (self : loc) : M Storage_obj :=
  o <- load self ;;
  match o with
  | OStorage st => ret st
  | ODict _ => stuck
  end.

(** Truth value of an object, as [if x] and [x and y] test it.  A proxy
    defines [__len__], so it is true when its backing object is not empty. *)
Definition truthy (v : value) : M bool :=
  match v with
  | VNone => ret false
  | VBool b => ret b
  | VInt z => ret (negb (Z.eqb z 0))
  | VStr s => ret (negb (String.eqb s EmptyString))
  | VRef l =>
      o <- load l ;;
      match o with
      | ODict es => ret (negb (Nat.eqb (List.length es) 0))
      | OStorage st =>
          n <- raw_len (_Storage__storage st) ;;
          ret (negb (Nat.eqb n 0))
      end
  end.

(** [Storage.__init__]: a missing [storage] argument gives a new, empty
    [OrderedDict] as backing object. *)
Definition Storage___init__ (storage parent parent_name readonly : value)
  : M loc :=
  b <- (if is_none storage then l <- alloc (ODict []) ;; ret (VRef l)
        else ret storage) ;;
  alloc (OStorage (mkStorage b parent parent_name readonly)).

(** [Storage.__get_parent] *)
Definition Storage___get_parent (self : loc) : M value :=
  st <- load_storage self ;;
  if is_none (_Storage__parent st) then ret VNone
  else
    t <- truthy (_Storage__parent_name st) ;;
    if t then ret (_Storage__parent st) else ret VNone.

(** [Storage.__set_parent_value]; only string keys are modelled. *)
Definition Storage___set_parent_value (self : loc) (v : value) : M unit :=
  st <- load_storage self ;;
  if is_none (_Storage__parent st) then ret tt
  else match _Storage__parent_name st with
       | VStr name => raw_setitem (_Storage__parent st) name v
       | _ => stuck
       end.

(** [Storage.__setattr__], which [Storage.__setitem__] forwards to. *)
Definition Storage___setattr__ (self : loc) (key : string) (v : value)
  : M unit :=
  st <- load_storage self ;;
  if is_private key then store self (OStorage (set_field st key v))
  else
    ro <- truthy (_Storage__readonly st) ;;
    blocked <- (if ro then raw_contains (_Storage__storage st) key
                else ret false) ;;
    if blocked then raise (KeyError read_only_msg)
    else
      raw_setitem (_Storage__storage st) key v ;;;
      parent <- Storage___get_parent self ;;
      if is_none parent then ret tt
      else Storage___set_parent_value self (_Storage__storage st).

Definition Storage___setitem__ := Storage___setattr__.

(** [type(ret) == OrderedDict or type(ret) == dict] *)
Definition is_plain_mapping (v : value) : M (option (list (string * value))) :=
  match v with
  | VRef l =>
      o <- load l ;;
      match o with
      | ODict es => ret (Some es)
      | OStorage _ => ret None
      end
  | _ => ret None
  end.

(** The loop [for key in ret: ret1[key] = ret[key]]. *)
Fixpoint copy_into (ret1 : loc) (src : value) (keys : list string) : M unit :=
  match keys with
  | [] => ret tt
  | key :: more =>
      v <- raw_getitem src key ;;
      Storage___setitem__ ret1 key v ;;;
      copy_into ret1 src more
  end.

(** [Storage.__getattr__], which [Storage.__getitem__] forwards to.  A plain
    mapping has no [autowrite] attribute, so that branch is skipped. *)
Definition Storage___getattr__ (self : loc) (item : string) : M value :=
  st <- load_storage self ;;
  let backing := _Storage__storage st in
  present <- raw_contains backing item ;;
  r0 <- (if present then raw_getitem backing item else ret VNone) ;;
  r <- (if is_none r0 then
          n <- Storage___init__ VNone backing (VStr item) (VBool false) ;;
          raw_setitem backing item (VRef n) ;;;
          ret (VRef n)
        else ret r0) ;;
  pm <- is_plain_mapping r ;;
  match pm with
  | Some es =>
      n1 <- Storage___init__ VNone backing (VStr item) (VBool false) ;;
      copy_into n1 r (dict_keys es) ;;;
      ret (VRef n1)
  | None => ret r
  end.

Definition Storage___getitem__ := Storage___getattr__.

(** [Storage.__delitem__] *)
Definition Storage___delitem__ (self : loc) (key : string) : M unit :=
  st <- load_storage self ;;
  if is_private key then ret tt
  else
    present <- raw_contains (_Storage__storage st) key ;;
    if present then raw_delitem (_Storage__storage st) key else ret tt.

(** [Storage.__contains__] *)
Definition Storage___contains__ (self : loc) (item : string) : M bool :=
  st <- load_storage self ;;
  raw_contains (_Storage__storage st) item.

(** [Storage.keys], as the list of keys in order. *)
Definition Storage_keys (self : loc) : M (list string) :=
  st <- load_storage self ;;
  match _Storage__storage st with
  | VRef l =>
      o <- load l ;;
      match o with
      | ODict es => ret (dict_keys es)
      | OStorage _ => stuck
      end
  | _ => stuck
  end.

(** ** Subscription of an arbitrary value

    The helpers of [Settings] subscript whatever the previous level returned:
    a proxy dispatches to the methods of [Settings.Storage], anything else is
    a built-in object. *)

Definition py_getitem (c : value) (k : string) : M value :=
  match c with
  | VRef l =>
      o <- load l ;;
      match o with
      | OStorage _ => Storage___getitem__ l k
      | ODict _ => raw_getitem c k
      end
  | _ => raw_getitem c k
  end.

Definition py_setitem (c : value) (k : string) (v : value) : M unit :=
  match c with
  | VRef l =>
      o <- load l ;;
      match o with
      | OStorage _ => Storage___setitem__ l k v
      | ODict _ => raw_setitem c k v
      end
  | _ => raw_setitem c k v
  end.

Definition py_contains (c : value) (k : string) : M bool :=
  match c with
  | VRef l =>
      o <- load l ;;
      match o with
      | OStorage _ => Storage___contains__ l k
      | ODict _ => raw_contains c k
      end
  | _ => raw_contains c k
  end.

(** [d if d else OrderedDict()] *)
Definition or_new_mapping (d : value) : M value :=
  t <- truthy d ;;
  if t then ret d else l <- alloc (ODict []) ;; ret (VRef l).

(** ** [Settings] *)

(** The part of a [Settings] instance the methods below look at: the names
    present in [self.__dict__], the watcher flag and the root proxy. *)
Record Settings_obj : Type := mkSettings {
  self_dict : list string;
  _Settings__is_watcher_on : bool;
  _Settings__storage : loc
}.

Definition Settings___watcher_on (s : Settings_obj) : Settings_obj :=
  mkSettings (self_dict s) true (_Settings__storage s).

Definition Settings___watcher_off (s : Settings_obj) : Settings_obj :=
  mkSettings (self_dict s) false (_Settings__storage s).

(** Outcome of a method of [Settings]: the instance is threaded next to the
    heap, so that the watcher flag is visible on both exits. *)
Inductive soutcome (A : Type) : Type :=
| SRet (a : A) (s : Settings_obj) (h : heap)
| SExc (e : exn) (s : Settings_obj) (h : heap)
| SStuck.
Arguments SRet {A} a s h.
Arguments SExc {A} e s h.
Arguments SStuck {A}.

(** Runs [m] between [__watcher_off()] and [__watcher_on()]; there is no
    [try]/[finally], so an exception skips the second call. *)
Definition between_watcher_calls {A} (s : Settings_obj) (m : M A) (h : heap)
  : soutcome A :=
  let s_off := Settings___watcher_off s in
  match m h with
  | Ret a h' => SRet a (Settings___watcher_on s_off) h'
  | Exc e h' => SExc e s_off h'
  | Stuck => SStuck
  end.

(** The helper of [Settings.__getitem__].  The recursion is on the key, which
    gets shorter at every call; [fuel] bounds the number of calls. *)
Fixpoint getitem_helper (fuel : nat) (key : string) (array : value)
  : M value :=
  match fuel with
  | O => stuck
  | S fuel' =>
      if PyStr.has_dot key then
        sub <- py_getitem array (PyStr.head key) ;;
        getitem_helper fuel' (PyStr.rest key) sub
      else py_getitem array key
  end.

Definition Settings___getitem__ (s : Settings_obj) (item : string) (h : heap)
  : soutcome value :=
  between_watcher_calls s
    (getitem_helper (S (String.length item)) item
                    (VRef (_Settings__storage s))) h.

(** The helper of [Settings.__setitem__]. *)
Fixpoint setitem_helper (fuel : nat) (d : value) (item : string) (val : value)
  : M value :=
  match fuel with
  | O => stuck
  | S fuel' =>
      r <- or_new_mapping d ;;
      (if PyStr.has_dot item then
         sub <- py_getitem r (PyStr.head item) ;;
         built <- setitem_helper fuel' sub (PyStr.rest item) val ;;
         py_setitem r (PyStr.head item) built
       else py_setitem r item val) ;;;
      ret r
  end.

(** [Settings.__setitem__].  The final retry of [watcher.addPath] only talks
    to the Qt watcher and does not touch the instance or the heap. *)
Definition Settings___setitem__ (s : Settings_obj) (key : string) (v : value)
  (h : heap) : soutcome unit :=
  let root := _Settings__storage s in
  between_watcher_calls s
    (if PyStr.has_dot key then
       sub <- Storage___getitem__ root (PyStr.head key) ;;
       built <- setitem_helper (String.length key) sub (PyStr.rest key) v ;;
       Storage___setitem__ root (PyStr.head key) built
     else Storage___setitem__ root key v) h.

(** [Settings.__delitem__] *)
Definition Settings___delitem__ (s : Settings_obj) (key : string) (h : heap)
  : soutcome unit :=
  if existsb (String.eqb key) (self_dict s) then SRet tt s h
  else
    match Storage___contains__ (_Settings__storage s) key h with
    | Ret true h1 =>
        between_watcher_calls s
          (Storage___delitem__ (_Settings__storage s) key) h1
    | Ret false h1 => SRet tt s h1
    | Exc e h1 => SExc e s h1
    | Stuck => SStuck
    end.

(** The helper of [Settings.__contains__]. *)
Fixpoint contains_helper (fuel : nat) (d : value) (key : string) : M bool :=
  match fuel with
  | O => stuck
  | S fuel' =>
      d' <- or_new_mapping d ;;
      if PyStr.has_dot key then
        found <- py_contains d' (PyStr.head key) ;;
        if found then
          sub <- py_getitem d' (PyStr.head key) ;;
          contains_helper fuel' sub (PyStr.rest key)
        else ret false
      else py_contains d' key
  end.

(** [Settings.__contains__]; the watcher flag is not touched. *)
Definition Settings___contains__ (s : Settings_obj) (item : string) : M bool :=
  let root := _Settings__storage s in
  if PyStr.has_dot item then
    found <- Storage___contains__ root (PyStr.head item) ;;
    if found then
      sub <- Storage___getitem__ root (PyStr.head item) ;;
      contains_helper (String.length item) sub (PyStr.rest item)
    else ret false
  else Storage___contains__ root item.

(** [Settings.keys] *)
Definition Settings_keys (s : Settings_obj) : M (list string) :=
  Storage_keys (_Settings__storage s).

(** [Settings.__init__] for a store without a file: [file_name=None],
    [file_necessary=False] and [class_type=OrderedDict], so that the backing
    document is an [OrderedDict] built from the keyword arguments and no
    watcher is started.  [kwargs]
    are the initial entries of the document. *)
Definition Settings___init__ (kwargs : list (string * value)) (readonly : bool)
  : M Settings_obj :=
  doc <- alloc (ODict kwargs) ;;
  root <- Storage___init__ (VRef doc) VNone (VStr EmptyString)
                           (VBool readonly) ;;
  ret (mkSettings ["file_name"; "autowrite"; "_Settings__on_change";
                   "_Settings__is_watcher_on"; "_Settings__storage"]
                  false root).

(** [Settings.__getattr__] for a name that is not an instance attribute; the
    values of the instance attributes themselves are not modelled. *)
Definition Settings___getattr__ (s : Settings_obj) (item : string) (h : heap)
  : soutcome value :=
  if existsb (String.eqb item) (self_dict s) then SStuck
  else between_watcher_calls s
         (Storage___getitem__ (_Settings__storage s) item) h.

(** The root proxy of [s] as [Settings.__init__] builds it, over a document
    with entries [es]. *)
Definition root_over (s : Settings_obj) (h : heap) (b : loc)
  (es : list (string * value)) (readonly : bool) : Prop :=
  hget h (_Settings__storage s)
  = Some (OStorage (mkStorage (VRef b) VNone (VStr EmptyString)
                              (VBool readonly)))
  /\ hget h b = Some (ODict es).

(** The heap after [Storage.__getattr__], on a proxy over the mapping at [b]
    with entries [es], has built a new, empty proxy for [k] and put it into
    that mapping. *)
Definition vivified (h : heap) (b : loc) (es : list (string * value))
  (k : string) : heap :=
  hset ((h ++ [ODict []])
          ++ [OStorage (mkStorage (VRef (List.length h)) (VRef b) (VStr k)
                                  (VBool false))])%list
       b (ODict (dict_set es k (VRef (S (List.length h))))).

(** The entries of the parent mapping [esb] after the copy loop of
    [Storage.__getattr__] has run over [keys], for a new proxy with parent
    key [k] over the mapping at [mb]. *)
Definition after_copy (k : string) (keys : list string)
  (esb : list (string * value)) (mb : loc) : list (string * value) :=
  match keys with
  | [] => esb
  | _ :: _ => if String.eqb k EmptyString then esb
              else dict_set esb k (VRef mb)
  end.

(** ** Stores used as concrete inputs *)

Definition built (o : outcome Settings_obj) : Settings_obj * heap :=
  match o with
  | Ret s h => (s, h)
  | _ => (mkSettings [] false 0, [])
  end.

(** [Settings(file_necessary=False, class_type=OrderedDict)] *)
Definition empty_store : Settings_obj * heap :=
  built (Settings___init__ [] false []).

(** The same store after [s["a"] = 5]. *)
Definition scalar_store : Settings_obj * heap :=
  match Settings___setitem__ (fst empty_store) "a" (VInt 5) (snd empty_store)
  with
  | SRet _ s h => (s, h)
  | _ => empty_store
  end.

(** A read-only store over the document [{"foo": {"bar": 1}}]. *)
Definition readonly_nested_store : Settings_obj * heap :=
  built (Settings___init__ [("foo", VRef 0)] true [ODict [("bar", VInt 1)]]).

(** A read-only store whose document has the key ["_Storage__readonly"]. *)
Definition readonly_private_store : Settings_obj * heap :=
  built (Settings___init__ [("_Storage__readonly", VInt 1)] true []).

(** The watcher flag with which an operation ends, on either exit. *)
Definition flag_after {A} (r : soutcome A) : option bool :=
  match r with
  | SRet _ s _ => Some (_Settings__is_watcher_on s)
  | SExc _ s _ => Some (_Settings__is_watcher_on s)
  | SStuck => None
  end.

Definition raises {A} (r : soutcome A) : bool :=
  match r with SExc _ _ _ => true | _ => false end.

(** ** The claims that do not hold as stated *)

(** C4, as stated: every get, set and delete ends with the flag on, whether it
    returns or raises. *)
Definition flag_on_at_every_exit : Prop :=
  forall (s : Settings_obj) (h : heap) (key : string) (v : value),
    (flag_after (Settings___getitem__ s key h) = Some true
     \/ flag_after (Settings___getitem__ s key h) = None)
    /\ (flag_after (Settings___setitem__ s key v h) = Some true
        \/ flag_after (Settings___setitem__ s key v h) = None)
    /\ (flag_after (Settings___delitem__ s key h) = Some true
        \/ flag_after (Settings___delitem__ s key h) = None).

(** The store without keys after [s["file_name"] = 1]: its document has a
    key named like an instance attribute. *)
Definition attribute_key_store : Settings_obj * heap :=
  match Settings___setitem__ (fst empty_store) "file_name" (VInt 1)
                             (snd empty_store)
  with
  | SRet _ s h => (s, h)
  | _ => empty_store
  end.

(** C5, as stated, for a read-only store: writing a stored undotted key
    raises the read-only [KeyError]. *)
Definition readonly_blocks_every_stored_key : Prop :=
  forall (kwargs : list (string * value)) (k : string) (v : value),
    PyStr.has_dot k = false -> dict_mem kwargs k = true ->
    let st := built (Settings___init__ kwargs true []) in
    exists s' h',
      Settings___setitem__ (fst st) k v (snd st)
      = SExc (KeyError read_only_msg) s' h'.

(** What [Storage.__getattr__] and [Settings.__init__] put into the parent
    fields of a proxy over the mapping at [b]: no parent, or a plain mapping
    other than [b] together with a string key. *)
Definition parent_ok (h : heap) (b : loc) (p pn : value) : Prop :=
  p = VNone
  \/ exists pb pes name,
       p = VRef pb /\ pb <> b /\ hget h pb = Some (ODict pes)
       /\ pn = VStr name.

(** C9, as stated, on the root proxy of the store without keys: after
    [node[k] = None] has returned, [node[k]] returns a proxy. *)
Definition none_reads_as_node_for_every_key : Prop :=
  forall (k : string) (h1 : heap),
    let root := _Settings__storage (fst empty_store) in
    Storage___setitem__ root k VNone (snd empty_store) = Ret tt h1 ->
    exists m h2, Storage___getitem__ root k h1 = Ret (VRef m) h2.

(** The entries seen through a value: those of a plain mapping, or those of
    the backing mapping of a proxy.  [Storage.__eq__] compares exactly these
    with its argument. *)
Definition mapping_view (h : heap) (v : value)
  : option (list (string * value)) :=
  match v with
  | VRef l =>
      match hget h l with
      | Some (ODict es) => Some es
      | Some (OStorage st) =>
          match _Storage__storage st with
          | VRef b =>
              match hget h b with
              | Some (ODict es) => Some es
              | _ => None
              end
          | _ => None
          end
      | None => None
      end
  | _ => None
  end.

(** A generous reading of "structurally equal", for what a read returns
    against what was written: the very same value, or two mappings (plain or
    seen through a proxy) that hold the same value under every key.  It only
    serves to state the claim about read-back as it is written; it is not
    the result of [==], which [Storage.__eq__] decides by comparing the
    backing mapping with the other operand. *)
Definition same_content (h : heap) (r v : value) : Prop :=
  r = v
  \/ exists es1 es2,
       mapping_view h r = Some es1 /\ mapping_view h v = Some es2
       /\ forall k, dict_get es1 k = dict_get es2 k.

(** What reading back a written value [v] gives, [h] being the heap before
    the write and [h2] the heap after the read: for a plain mapping a proxy
    that did not exist before the write, showing the entries of the mapping;
    for any other value [v] itself. *)
Definition read_back (h h2 : heap) (v r : value) : Prop :=
  match v with
  | VRef l =>
      match hget h l with
      | Some (ODict ds) =>
          exists m st,
            r = VRef m /\ hget h m = None
            /\ hget h2 m = Some (OStorage st)
            /\ mapping_view h2 r = Some ds
      | _ => r = v
      end
  | _ => r = v
  end.

(** The values for which an undotted write can be read back: anything but
    [None], a plain mapping being a live one, other than the document, none
    of whose keys is a private attribute name of the proxy. *)
Definition readable_back (h : heap) (doc : loc) (v : value) : Prop :=
  match v with
  | VNone => False
  | VRef l =>
      match hget h l with
      | Some (OStorage _) => True
      | Some (ODict ds) =>
          l <> doc /\ NoDup (dict_keys ds)
          /\ (forall key, In key (dict_keys ds) -> is_private key = false)
      | None => False
      end
  | _ => True
  end.

(** C3, as stated, on the store without keys: whatever was written under an
    undotted key is read back as an equal value. *)
Definition undotted_write_reads_back_every_value : Prop :=
  forall (p : string) (v : value) (s1 : Settings_obj) (h1 : heap),
    PyStr.has_dot p = false ->
    Settings___setitem__ (fst empty_store) p v (snd empty_store)
    = SRet tt s1 h1 ->
    exists r s2 h2,
      Settings___getitem__ s1 p h1 = SRet r s2 h2 /\ same_content h2 r v.



(** No mapping of [h] has other keys in [h'], and no proxy has changed. *)
Definition keys_kept (h h' : heap) : Prop :=
  (forall l es, hget h l = Some (ODict es) ->
                exists es', hget h' l = Some (ODict es')
                            /\ dict_keys es' = dict_keys es)
  /\ (forall l st, hget h l = Some (OStorage st) ->
                   hget h' l = Some (OStorage st)).




(** ** The remaining methods *)

(** [Storage.__len__] *)
Definition Storage___len__ (self : loc) : M nat :=
  st <- load_storage self ;;
  raw_len (_Storage__storage st).

(** [Settings.__len__] *)
Definition Settings___len__ (s : Settings_obj) : M nat :=
  Storage___len__ (_Settings__storage s).

(** [Storage.items], as the list of pairs in order; the values are the
    stored ones, not proxies made for them. *)
Definition Storage_items (self : loc) : M (list (string * value)) :=
  st <- load_storage self ;;
  match _Storage__storage st with
  | VRef l =>
      o <- load l ;;
      match o with
      | ODict es => ret es
      | OStorage _ => stuck
      end
  | _ => stuck
  end.

(** [Settings.items] *)
Definition Settings_items (s : Settings_obj) : M (list (string * value)) :=
  Storage_items (_Settings__storage s).

(** [Settings.__setattr__].  A name of the instance dictionary is assigned
    there, as is any name while [__init__] has not yet stored the root proxy;
    the values of the instance attributes are not modelled, so both cases are
    outside the modelled fragment. *)
Definition Settings___setattr__ (s : Settings_obj) (key : string) (v : value)
  (h : heap) : soutcome unit :=
  if existsb (String.eqb key) (self_dict s) then SStuck
  else if existsb (String.eqb "_Settings__storage") (self_dict s) then
    between_watcher_calls s
      (Storage___setitem__ (_Settings__storage s) key v) h
  else SStuck.

(** [node[k]] on the value that a method of [Settings] has returned, in the
    caller's code: an exception it raises does not touch the instance. *)
Definition then_getitem (r : soutcome value) (k : string) : soutcome value :=
  match r with
  | SRet d s h =>
      match py_getitem d k h with
      | Ret v h' => SRet v s h'
      | Exc e h' => SExc e s h'
      | Stuck => SStuck
      end
  | other => other
  end.

(** [node[k] = v] on the value that a method of [Settings] has returned. *)
Definition then_setitem (r : soutcome value) (k : string) (v : value)
  : soutcome unit :=
  match r with
  | SRet d s h =>
      match py_setitem d k v h with
      | Ret _ h' => SRet tt s h'
      | Exc e h' => SExc e s h'
      | Stuck => SStuck
      end
  | SExc e s h => SExc e s h
  | SStuck => SStuck
  end.

(** A value that is neither [None] nor an object on the heap. *)
Definition scalar (v : value) : Prop :=
  match v with
  | VBool _ | VInt _ | VStr _ => True
  | VNone | VRef _ => False
  end.

(** The truth value of a scalar, as [truthy] computes it. *)
Definition scalar_truth (v : value) : bool :=
  match v with
  | VBool b => b
  | VInt z => negb (Z.eqb z 0)
  | VStr s => negb (String.eqb s EmptyString)
  | VNone | VRef _ => false
  end.

(** How [s[a + "." + b]] ends, given how [s[a][b]] ends: the same value or
    exception and the same heap; the watcher flag is off after an exception,
    also one raised by the second subscription. *)
Definition as_one_call (s : Settings_obj) (r : soutcome value)
  : soutcome value :=
  match r with
  | SRet v s' h => SRet v s' h
  | SExc e _ h => SExc e (Settings___watcher_off s) h
  | SStuck => SStuck
  end.

(** A store that is not read-only, over the document [{"foo": {"bar": 1}}]. *)
Definition nested_store : Settings_obj * heap :=
  built (Settings___init__ [("foo", VRef 0)] false [ODict [("bar", VInt 1)]]).

(** C2, as stated, on the store without keys: for undotted segment names,
    [b] and [c] different, after [s[a + "." + b] = v1] and
    [s[a + "." + c] = v2] what [s[a]] returns shows [v1] under [b], [v2]
    under [c] and nothing else. *)
Definition siblings_kept_for_every_name : Prop :=
  forall (a b c : string) (v1 v2 : value),
    PyStr.has_dot a = false -> PyStr.has_dot b = false ->
    PyStr.has_dot c = false -> b <> c ->
    exists s1 h1 s2 h2 r s3 h3 shown,
      Settings___setitem__ (fst empty_store)
                           (a ++ String PyStr.dot b)%string v1
                           (snd empty_store)
      = SRet tt s1 h1
      /\ Settings___setitem__ s1 (a ++ String PyStr.dot c)%string v2 h1
         = SRet tt s2 h2
      /\ Settings___getitem__ s2 a h2 = SRet r s3 h3
      /\ mapping_view h3 r = Some shown
      /\ forall k, dict_get shown k = dict_get [(b, v1); (c, v2)] k.

(** * Properties *)

Open Scope list_scope.

(** ** The heap *)

Section HeapFacts.

Lemma hset_length (h : heap) (l : loc) (o : obj) :
  List.length (hset h l o) = List.length h.
Proof.
  revert l; induction h as [|x t IH]; intros [|l]; simpl; auto.
Qed.

Lemma hget_hset_same (h : heap) (l : loc) (o : obj) :
  l < List.length h -> hget (hset h l o) l = Some o.
Proof.
  unfold hget; revert l; induction h as [|x t IH]; intros [|l] Hl;
    simpl in *; try lia; auto.
  apply IH; lia.
Qed.

Lemma hget_hset_other (h : heap) (l l' : loc) (o : obj) :
  l <> l' -> hget (hset h l o) l' = hget h l'.
Proof.
  unfold hget; revert l l'; induction h as [|x t IH]; intros [|l] [|l'] Hn;
    simpl; auto; try congruence.
Qed.

Lemma hget_bound (h : heap) (l : loc) (o : obj) :
  hget h l = Some o -> l < List.length h.
Proof.
  unfold hget; intros E; apply nth_error_Some; congruence.
Qed.

Lemma hget_app_old (h : heap) (l : loc) (o x : obj) :
  hget h l = Some o -> hget (h ++ [x]) l = Some o.
Proof.
  unfold hget; intros E; rewrite nth_error_app1; auto.
  apply nth_error_Some; congruence.
Qed.

Lemma hget_app_new (h : heap) (x : obj) :
  hget (h ++ [x]) (List.length h) = Some x.
Proof.
  unfold hget; rewrite nth_error_app2, Nat.sub_diag; auto.
Qed.

Lemma hget_fresh (h : heap) (l : loc) :
  List.length h <= l -> hget h l = None.
Proof.
  unfold hget; intros; apply nth_error_None; auto.
Qed.

End HeapFacts.

(** ** Plain mappings *)

Section DictFacts.

Lemma dict_get_set_same es k v : dict_get (dict_set es k v) k = Some v.
Proof.
  induction es as [|[k' v'] t IH]; simpl.
  - rewrite String.eqb_refl; reflexivity.
  - destruct (String.eqb k' k) eqn:E; simpl; rewrite E; auto.
Qed.

Lemma dict_get_set_other es k k' v :
  k <> k' -> dict_get (dict_set es k v) k' = dict_get es k'.
Proof.
  intros Hn; induction es as [|[k0 v0] t IH]; simpl.
  - destruct (String.eqb k k') eqn:E; auto.
    apply String.eqb_eq in E; contradiction.
  - destruct (String.eqb k0 k) eqn:E; simpl.
    + apply String.eqb_eq in E; subst k0.
      destruct (String.eqb k k') eqn:E'; auto.
      apply String.eqb_eq in E'; contradiction.
    + destruct (String.eqb k0 k'); auto.
Qed.

Lemma dict_set_absent es k v :
  dict_mem es k = false -> dict_set es k v = (es ++ [(k, v)])%list.
Proof.
  unfold dict_mem; induction es as [|[k' v'] t IH]; simpl; auto.
  destruct (String.eqb k' k); try discriminate.
  intros H; rewrite IH; auto.
Qed.

Lemma dict_keys_set_present es k v :
  dict_mem es k = true -> dict_keys (dict_set es k v) = dict_keys es.
Proof.
  unfold dict_mem, dict_keys; induction es as [|[k' v'] t IH]; simpl;
    try discriminate.
  destruct (String.eqb k' k); simpl; auto.
  intros H; rewrite IH; auto.
Qed.

Lemma dict_mem_set_same es k v : dict_mem (dict_set es k v) k = true.
Proof. unfold dict_mem; rewrite dict_get_set_same; reflexivity. Qed.

End DictFacts.

(** ** One-step equations for the primitives *)

Section Primitives.

Lemma bind_Ret {A B} (m : M A) (f : A -> M B) h a h' :
  m h = Ret a h' -> bind m f h = f a h'.
Proof. unfold bind; intros ->; reflexivity. Qed.

Lemma bind_Exc {A B} (m : M A) (f : A -> M B) h e h' :
  m h = Exc e h' -> bind m f h = Exc e h'.
Proof. unfold bind; intros ->; reflexivity. Qed.

Lemma load_storage_at h l st :
  hget h l = Some (OStorage st) -> load_storage l h = Ret st h.
Proof. unfold load_storage, bind, load; intros ->; reflexivity. Qed.

Lemma raw_contains_dict h b es k :
  hget h b = Some (ODict es) ->
  raw_contains (VRef b) k h = Ret (dict_mem es k) h.
Proof. unfold raw_contains, bind, load; intros ->; reflexivity. Qed.

Lemma raw_getitem_dict h b es k v :
  hget h b = Some (ODict es) -> dict_get es k = Some v ->
  raw_getitem (VRef b) k h = Ret v h.
Proof. unfold raw_getitem, bind, load; intros -> ->; reflexivity. Qed.

Lemma raw_getitem_missing h b es k :
  hget h b = Some (ODict es) -> dict_get es k = None ->
  raw_getitem (VRef b) k h = Exc (KeyError k) h.
Proof. unfold raw_getitem, bind, load; intros -> ->; reflexivity. Qed.

Lemma raw_setitem_dict h b es k v :
  hget h b = Some (ODict es) ->
  raw_setitem (VRef b) k v h = Ret tt (hset h b (ODict (dict_set es k v))).
Proof.
  unfold raw_setitem, bind, load, store; intros E; rewrite E, E; reflexivity.
Qed.

Lemma raw_len_dict h b es :
  hget h b = Some (ODict es) -> raw_len (VRef b) h = Ret (List.length es) h.
Proof. unfold raw_len, bind, load; intros ->; reflexivity. Qed.

End Primitives.

(** ** Symbolic execution on a partly known heap *)

Lemma hget_app_lt (h : heap) (l : loc) (x : obj) :
  l < List.length h -> hget (h ++ [x]) l = hget h l.
Proof. unfold hget; intros; rewrite nth_error_app1; auto. Qed.

Lemma hget_app_eq (h : heap) (l : loc) (x : obj) :
  l = List.length h -> hget (h ++ [x]) l = Some x.
Proof. intros ->; apply hget_app_new. Qed.

Lemma length_app_one (h : heap) (x : obj) :
  List.length (h ++ [x]) = S (List.length h).
Proof. rewrite length_app; simpl; lia. Qed.

Ltac heap_bounds :=
  repeat match goal with
         | H : hget ?h ?l = Some _ |- _ =>
             lazymatch goal with
             | _ : l < List.length h |- _ => fail
             | _ => pose proof (hget_bound _ _ _ H)
             end
         end.

Ltac heap_side :=
  heap_bounds;
  first [ congruence
        | rewrite ?hset_length, ?length_app_one in *; simpl in *; lia ].

Ltac heap_step :=
  match goal with
  | H : hget ?h ?l = _ |- context [hget ?h ?l] => rewrite H
  | |- context [hget (hset ?h ?l ?o) ?l] =>
      rewrite (hget_hset_same h l o) by heap_side
  | |- context [hget (hset ?h ?l ?o) ?l'] =>
      rewrite (hget_hset_other h l l' o) by heap_side
  | |- context [hget (?h ++ [?x]) ?l] =>
      first [ rewrite (hget_app_lt h l x) by heap_side
            | rewrite (hget_app_eq h l x) by heap_side ]
  end.

Ltac mred :=
  cbv beta iota delta
      [bind ret raise stuck load store alloc is_none truthy
       _Storage__storage _Storage__parent _Storage__parent_name
       _Storage__readonly];
  rewrite ?length_app_one, ?hset_length.

Ltac run := mred; repeat (heap_step; mred).

(** ** A proxy over a plain mapping *)

Section Node.

Variables (h : heap) (n b : loc) (es : list (string * value)).
Variables (p pn ro : value).
Hypothesis Hn : hget h n = Some (OStorage (mkStorage (VRef b) p pn ro)).
Hypothesis Hb : hget h b = Some (ODict es).

Lemma node_contains k :
  Storage___contains__ n k h = Ret (dict_mem es k) h.
Proof.
  unfold Storage___contains__, load_storage, raw_contains; run; reflexivity.
Qed.

Lemma node_keys : Storage_keys n h = Ret (dict_keys es) h.
Proof. unfold Storage_keys, load_storage; run; reflexivity. Qed.

(** A write that the read-only test lets through, on a proxy without a
    parent. *)
Lemma node_set_root k v :
  p = VNone -> is_private k = false ->
  (ro = VBool false \/ (ro = VBool true /\ dict_mem es k = false)) ->
  Storage___setattr__ n k v h
  = Ret tt (hset h b (ODict (dict_set es k v))).
Proof.
  intros -> Hk Hro.
  unfold Storage___setattr__, Storage___get_parent, load_storage,
    raw_contains, raw_setitem.
  run. rewrite Hk.
  destruct Hro as [-> | [-> Hm]]; run; try rewrite Hm; run; reflexivity.
Qed.

(** The read-only test. *)
Lemma node_set_blocked k v :
  is_private k = false -> ro = VBool true -> dict_mem es k = true ->
  Storage___setattr__ n k v h = Exc (KeyError read_only_msg) h.
Proof.
  intros Hk -> Hm.
  unfold Storage___setattr__, load_storage, raw_contains.
  run. rewrite Hk. run. rewrite Hm. reflexivity.
Qed.

(** A private name goes to the instance dictionary, whatever the flag. *)
Lemma node_set_private k v :
  is_private k = true ->
  Storage___setattr__ n k v h
  = Ret tt (hset h n (OStorage (set_field (mkStorage (VRef b) p pn ro) k v))).
Proof.
  intros Hk. unfold Storage___setattr__, load_storage.
  run. rewrite Hk. run. reflexivity.
Qed.

(** Reading a key that is absent, or that holds [None]. *)
Lemma node_get_vivify k :
  dict_get es k = None \/ dict_get es k = Some VNone ->
  Storage___getattr__ n k h
  = Ret (VRef (S (List.length h))) (vivified h b es k).
Proof.
  intros Hk.
  unfold Storage___getattr__, Storage___init__, load_storage, raw_contains,
    raw_getitem, raw_setitem, is_plain_mapping, dict_mem, vivified.
  run. destruct Hk as [Hk | Hk]; repeat (rewrite Hk; run); reflexivity.
Qed.

(** Reading a key that holds neither [None] nor a plain mapping. *)
Lemma node_get_value k v :
  dict_get es k = Some v -> v <> VNone ->
  (forall l ds, v = VRef l -> hget h l <> Some (ODict ds)) ->
  (forall l, v = VRef l -> hget h l <> None) ->
  Storage___getattr__ n k h = Ret v h.
Proof.
  intros Hk Hnone Hplain Hlive.
  unfold Storage___getattr__, Storage___init__, load_storage, raw_contains,
    raw_getitem, raw_setitem, is_plain_mapping, dict_mem.
  run. repeat (rewrite Hk; run).
  destruct v as [| | | |l]; try congruence; run; auto.
  destruct (hget h l) as [[ds|st]|] eqn:El; run; auto.
  - exfalso; eapply Hplain; eauto.
  - exfalso; eapply Hlive; eauto.
Qed.

End Node.

(** ** Dotted writes into an empty store *)

(** C1: on the store that has no key yet, [s["a.b.c"] = v] does not complete:
    the helper replaces the empty node read for ["a"] by a new [OrderedDict]
    and subscripts it with ["b"], which raises [KeyError('b')]; the node
    created for ["a"] stays in the document and the watcher flag stays off. *)
Theorem setitem_three_segments_empty_store (v : value) :
  exists h',
    Settings___setitem__ (fst empty_store) "a.b.c" v (snd empty_store)
    = SExc (KeyError "b") (Settings___watcher_off (fst empty_store)) h'
    /\ Settings_keys (fst empty_store) h' = Ret ["a"] h'.
Proof. eexists; split; vm_compute; reflexivity. Qed.

(** ** The watcher flag *)

(** C4 fails: with [5] stored under ["a"], reading ["a.b"] subscripts an
    integer, [TypeError] leaves [__getitem__] and the flag stays off. *)
Lemma flag_off_after_failed_read : ~ flag_on_at_every_exit.
Proof.
  intros H.
  destruct (H (fst scalar_store) (snd scalar_store) "a.b" VNone)
    as [[E | E] _]; vm_compute in E; discriminate.
Qed.

(** C4, amended: a get or a set that returns leaves the flag on and one that
    raises leaves it off; a delete does the same when the key is stored and is
    not the name of an instance attribute, and otherwise leaves the instance
    as it was. *)
Theorem flag_follows_exit (s : Settings_obj) (h : heap) (key : string)
  (v : value) :
  flag_after (Settings___getitem__ s key h)
  = (if raises (Settings___getitem__ s key h) then Some false
     else match Settings___getitem__ s key h with
          | SStuck => None | _ => Some true end)
  /\ flag_after (Settings___setitem__ s key v h)
     = (if raises (Settings___setitem__ s key v h) then Some false
        else match Settings___setitem__ s key v h with
             | SStuck => None | _ => Some true end)
  /\ (let stored_key :=
        negb (existsb (String.eqb key) (self_dict s))
        && match Storage___contains__ (_Settings__storage s) key h with
           | Ret true _ => true
           | _ => false
           end in
      match Settings___delitem__ s key h with
      | SRet _ s' _ =>
          s' = if stored_key
               then Settings___watcher_on (Settings___watcher_off s) else s
      | SExc _ s' _ =>
          s' = if stored_key then Settings___watcher_off s else s
      | SStuck => True
      end).
Proof.
  unfold Settings___getitem__, Settings___setitem__, Settings___delitem__,
    between_watcher_calls.
  repeat split.
  - destruct (getitem_helper _ _ _ h); reflexivity.
  - match goal with |- context [match ?m h with _ => _ end] =>
      destruct (m h) end; reflexivity.
  - destruct (existsb _ _); cbn; auto.
    destruct (Storage___contains__ _ _ h) as [[|] h1|e h1|]; auto.
    destruct (Storage___delitem__ _ _ h1); auto.
Qed.

(** ** Deleting a key named like an instance attribute *)

(** C10: when [key] is the name of an entry of the instance dictionary of the
    store, [del s[key]] returns at once; the instance and every heap cell,
    the document included, are as before, whether or not [key] is stored. *)
Theorem delitem_attribute_name (s : Settings_obj) (h : heap) (key : string) :
  In key (self_dict s) -> Settings___delitem__ s key h = SRet tt s h.
Proof.
  intros Hin. unfold Settings___delitem__.
  replace (existsb (String.eqb key) (self_dict s)) with true; auto.
  symmetry; apply existsb_exists; exists key; split; auto.
  apply String.eqb_refl.
Qed.

Lemma delitem_attribute_name_witness :
  Settings_keys (fst attribute_key_store) (snd attribute_key_store)
  = Ret ["file_name"] (snd attribute_key_store)
  /\ Settings___delitem__ (fst attribute_key_store) "file_name"
                          (snd attribute_key_store)
     = SRet tt (fst attribute_key_store) (snd attribute_key_store).
Proof.
  split; [reflexivity|].
  apply (delitem_attribute_name (fst attribute_key_store)
           (snd attribute_key_store) "file_name").
  simpl; auto.
Defined.

(** ** The read-only flag *)

Lemma init_root_over kwargs ro :
  let st := built (Settings___init__ kwargs ro []) in
  root_over (fst st) (snd st) 0 kwargs ro.
Proof. split; reflexivity. Qed.

(** C5 fails for a private attribute name of the proxy: in a read-only store
    whose document has the key ["_Storage__readonly"], writing that key does
    not raise; the value goes to the instance dictionary of the root proxy. *)
Lemma readonly_private_name_not_blocked : ~ readonly_blocks_every_stored_key.
Proof.
  intros H.
  destruct (H [("_Storage__readonly", VInt 1)] "_Storage__readonly"
              (VBool false) eq_refl eq_refl) as (s' & h' & E).
  vm_compute in E. discriminate.
Qed.

(** C5, amended: in a read-only store, for an undotted key that is not one of
    the four private attribute names of the proxy, [s[k] = v] raises the
    read-only [KeyError] when [k] is in the document, leaving it as it was,
    and otherwise returns with [(k, v)] added at the end of the document. *)
Theorem readonly_blocks_overwrite_only (s : Settings_obj) (h : heap) (b : loc)
  (es : list (string * value)) (k : string) (v : value) :
  root_over s h b es true ->
  PyStr.has_dot k = false -> is_private k = false ->
  Settings___setitem__ s k v h
  = if dict_mem es k
    then SExc (KeyError read_only_msg) (Settings___watcher_off s) h
    else SRet tt (Settings___watcher_on (Settings___watcher_off s))
              (hset h b (ODict (es ++ [(k, v)]))).
Proof.
  intros [Hn Hb] Hdot Hpriv.
  unfold Settings___setitem__, between_watcher_calls. rewrite Hdot.
  destruct (dict_mem es k) eqn:Hm.
  - erewrite node_set_blocked; eauto.
  - erewrite node_set_root; eauto.
    rewrite dict_set_absent; auto.
Qed.

Lemma readonly_blocks_overwrite_only_witness :
  Settings___setitem__ (fst readonly_nested_store) "foo" (VInt 7)
                       (snd readonly_nested_store)
  = SExc (KeyError read_only_msg)
         (Settings___watcher_off (fst readonly_nested_store))
         (snd readonly_nested_store)
  /\ Settings___setitem__ (fst readonly_nested_store) "new" (VInt 7)
                          (snd readonly_nested_store)
     = SRet tt
         (Settings___watcher_on
            (Settings___watcher_off (fst readonly_nested_store)))
         (hset (snd readonly_nested_store) 1
               (ODict ([("foo", VRef 0)] ++ [("new", VInt 7)]))).
Proof.
  split.
  - apply (readonly_blocks_overwrite_only (fst readonly_nested_store)
             (snd readonly_nested_store) 1 [("foo", VRef 0)] "foo" (VInt 7));
      [split; reflexivity | reflexivity | reflexivity].
  - apply (readonly_blocks_overwrite_only (fst readonly_nested_store)
             (snd readonly_nested_store) 1 [("foo", VRef 0)] "new" (VInt 7));
      [split; reflexivity | reflexivity | reflexivity].
Defined.

(** C6: the proxies made during traversal are built with the default
    [readonly=False].  In the read-only store over [{"foo": {"bar": 1}}],
    [s.foo] returns a proxy on which [bar = 2] returns without raising, and
    [s["foo.bar"]] is [2] afterwards. *)
Theorem nested_write_ignores_readonly :
  exists node s1 h1 h2 s3 h3,
    Settings___getattr__ (fst readonly_nested_store) "foo"
                         (snd readonly_nested_store)
    = SRet (VRef node) s1 h1
    /\ Storage___setattr__ node "bar" (VInt 2) h1 = Ret tt h2
    /\ Settings___getitem__ s1 "foo.bar" h2 = SRet (VInt 2) s3 h3.
Proof. do 6 eexists. repeat split; vm_compute; reflexivity. Qed.

(** ** Stored [None] *)

Lemma get_parent_none h n b pn ro :
  hget h n = Some (OStorage (mkStorage b VNone pn ro)) ->
  Storage___get_parent n h = Ret VNone h.
Proof.
  intros E. unfold Storage___get_parent, load_storage. run. reflexivity.
Qed.

Lemma get_parent_named h n b pb name ro :
  hget h n = Some (OStorage (mkStorage b (VRef pb) (VStr name) ro)) ->
  Storage___get_parent n h
  = Ret (if String.eqb name EmptyString then VNone else VRef pb) h.
Proof.
  intros E. unfold Storage___get_parent, load_storage. run.
  destruct (String.eqb name EmptyString); reflexivity.
Qed.

Lemma set_parent_value_named h n b pb pes name ro v :
  hget h n = Some (OStorage (mkStorage b (VRef pb) (VStr name) ro)) ->
  hget h pb = Some (ODict pes) ->
  Storage___set_parent_value n v h
  = Ret tt (hset h pb (ODict (dict_set pes name v))).
Proof.
  intros E Epb.
  unfold Storage___set_parent_value, load_storage, raw_setitem. run.
  reflexivity.
Qed.

Section NodeWrite.

Variables (h : heap) (n b : loc) (es : list (string * value)).
Variables (p pn : value) (ro : bool).
Hypothesis Hn :
  hget h n = Some (OStorage (mkStorage (VRef b) p pn (VBool ro))).
Hypothesis Hb : hget h b = Some (ODict es).
Hypothesis Hp : parent_ok h b p pn.

(** A write through a well-formed proxy that returns has put the value
    into the backing mapping and has left the proxy as it was. *)
Lemma node_set_returns k v h1 :
  is_private k = false ->
  Storage___setattr__ n k v h = Ret tt h1 ->
  hget h1 n = Some (OStorage (mkStorage (VRef b) p pn (VBool ro)))
  /\ hget h1 b = Some (ODict (dict_set es k v))
  /\ parent_ok h1 b p pn
  /\ List.length h1 = List.length h.
Proof.
  intros Hk. unfold Storage___setattr__.
  rewrite (bind_Ret _ _ _ _ _ (load_storage_at _ _ _ Hn)). rewrite Hk.
  mred.
  assert (Hc : (if ro then raw_contains (VRef b) k else fun h0 => Ret false h0) h
               = Ret (ro && dict_mem es k) h).
  { destruct ro; [apply (raw_contains_dict _ _ _ _ Hb) | reflexivity]. }
  rewrite Hc. destruct (ro && dict_mem es k); [discriminate|].
  rewrite (raw_setitem_dict _ _ _ _ _ Hb).
  set (h' := hset h b (ODict (dict_set es k v))).
  assert (Hn' : hget h' n = Some (OStorage (mkStorage (VRef b) p pn (VBool ro))))
    by (unfold h'; heap_step; auto).
  assert (Hb' : hget h' b = Some (ODict (dict_set es k v)))
    by (unfold h'; heap_step; auto).
  destruct Hp as [-> | (pb & pes & name & -> & Hne & Hpb & ->)].
  - rewrite (get_parent_none _ _ _ _ _ Hn').
    intros E; injection E as <-. repeat split; auto.
    + left; reflexivity.
    + unfold h'; apply hset_length.
  - rewrite (get_parent_named _ _ _ _ _ _ Hn').
    assert (Hpb' : hget h' pb = Some (ODict pes))
      by (unfold h'; heap_step; auto).
    destruct (String.eqb name EmptyString); cbv beta iota delta [is_none].
    + intros E; injection E as <-. repeat split; auto.
      * right; exists pb, pes, name; auto.
      * unfold h'; apply hset_length.
    + rewrite (set_parent_value_named _ _ _ _ _ _ _ _ Hn' Hpb').
      intros E; injection E as <-. repeat split.
      * heap_step; auto.
      * heap_step; auto.
      * right; exists pb; eexists; exists name; repeat split; auto.
        heap_step; reflexivity.
      * unfold h'; rewrite !hset_length; auto.
Qed.

End NodeWrite.

(** C9 fails for the private name ["_Storage__storage"]: [node[k] = None]
    returns, having replaced the backing object of the root proxy by [None],
    and the read that follows raises [TypeError] instead of returning. *)
Lemma none_under_private_name_breaks_read :
  ~ none_reads_as_node_for_every_key.
Proof.
  intros H.
  destruct (H "_Storage__storage" _ eq_refl) as (m & h2 & E).
  vm_compute in E. discriminate.
Qed.

(** C9, amended: on a proxy over a plain mapping, for every key [k] that is
    not one of the four private attribute names, once [node[k] = None] has
    returned the mapping holds [None] under [k], and [node[k]] then returns a
    new proxy over a new empty mapping, which it has put under [k] in place
    of the [None]. *)
Theorem stored_none_reads_as_new_node (h : heap) (n b : loc)
  (es : list (string * value)) (p pn : value) (ro : bool) (k : string)
  (h1 : heap) :
  hget h n = Some (OStorage (mkStorage (VRef b) p pn (VBool ro))) ->
  hget h b = Some (ODict es) ->
  parent_ok h b p pn ->
  is_private k = false ->
  Storage___setitem__ n k VNone h = Ret tt h1 ->
  let m := S (List.length h1) in
  exists es1 h2 es2,
    hget h1 b = Some (ODict es1) /\ dict_get es1 k = Some VNone
    /\ hget h1 m = None
    /\ Storage___getitem__ n k h1 = Ret (VRef m) h2
    /\ hget h2 m
       = Some (OStorage (mkStorage (VRef (List.length h1)) (VRef b) (VStr k)
                                   (VBool false)))
    /\ hget h2 (List.length h1) = Some (ODict [])
    /\ hget h2 b = Some (ODict es2) /\ dict_get es2 k = Some (VRef m).
Proof.
  intros Hn Hb Hp Hk Hset m.
  destruct (node_set_returns h n b es p pn ro Hn Hb Hp k VNone h1 Hk Hset)
    as (Hn1 & Hb1 & _ & _).
  exists (dict_set es k VNone), (vivified h1 b (dict_set es k VNone) k),
    (dict_set (dict_set es k VNone) k (VRef m)).
  repeat split; auto.
  - apply dict_get_set_same.
  - apply hget_fresh; unfold m; lia.
  - unfold Storage___getitem__.
    erewrite node_get_vivify; eauto.
    right; apply dict_get_set_same.
  - unfold vivified, m; repeat heap_step; reflexivity.
  - unfold vivified; repeat heap_step; reflexivity.
  - unfold vivified; repeat heap_step; reflexivity.
  - apply dict_get_set_same.
Qed.

Lemma stored_none_reads_as_new_node_witness :
  exists h1,
    Storage___setitem__ 1 "k" VNone (snd empty_store) = Ret tt h1
    /\ exists es1 h2 es2,
        hget h1 0 = Some (ODict es1) /\ dict_get es1 "k" = Some VNone
        /\ hget h1 (S (List.length h1)) = None
        /\ Storage___getitem__ 1 "k" h1 = Ret (VRef (S (List.length h1))) h2
        /\ hget h2 (S (List.length h1))
           = Some (OStorage (mkStorage (VRef (List.length h1)) (VRef 0)
                                       (VStr "k") (VBool false)))
        /\ hget h2 (List.length h1) = Some (ODict [])
        /\ hget h2 0 = Some (ODict es2)
        /\ dict_get es2 "k" = Some (VRef (S (List.length h1))).
Proof.
  eexists; split; [reflexivity|].
  apply (stored_none_reads_as_new_node (snd empty_store) 1 0 [] VNone
           (VStr EmptyString) false "k");
    [reflexivity | reflexivity | left; reflexivity | reflexivity
    | reflexivity].
Defined.

(** ** Keys and their segments *)

Section KeyFacts.

Lemma split_not_nil s : PyStr.split s <> [].
Proof.
  destruct s as [|c r]; simpl; try discriminate.
  destruct (Ascii.eqb c PyStr.dot); try discriminate.
  destruct (PyStr.split r); discriminate.
Qed.

Lemma join_split s : PyStr.join (PyStr.split s) = s.
Proof.
  induction s as [|c r IH]; auto.
  simpl. destruct (Ascii.eqb c PyStr.dot) eqn:Ec.
  - apply Ascii.eqb_eq in Ec; subst c.
    destruct (PyStr.split r) as [|w ws] eqn:Er.
    + destruct (split_not_nil _ Er).
    + cbn [PyStr.join]. cbn [PyStr.join] in IH. rewrite IH. reflexivity.
  - destruct (PyStr.split r) as [|w ws] eqn:Er.
    + destruct (split_not_nil _ Er).
    + destruct ws as [|w' ws']; simpl in *; rewrite <- IH; reflexivity.
Qed.

Lemma head_no_dot key : PyStr.has_dot key = false -> PyStr.head key = key.
Proof.
  unfold PyStr.head. induction key as [|c r IH]; simpl; auto.
  destruct (Ascii.eqb c PyStr.dot); try discriminate.
  intros H. specialize (IH H).
  destruct (PyStr.split r) as [|w ws] eqn:Er.
  - destruct (split_not_nil _ Er).
  - simpl in *. congruence.
Qed.

Lemma rest_shorter key :
  PyStr.has_dot key = true ->
  String.length (PyStr.rest key) < String.length key.
Proof.
  unfold PyStr.rest. induction key as [|c r IH]; simpl; try discriminate.
  destruct (Ascii.eqb c PyStr.dot).
  - intros _. simpl. rewrite join_split. lia.
  - intros H. specialize (IH H).
    destruct (PyStr.split r) as [|w ws] eqn:Er.
    + destruct (split_not_nil _ Er).
    + simpl in *. lia.
Qed.

End KeyFacts.

(** ** Reading a path that is not set *)

Lemma py_getitem_node h n st k :
  hget h n = Some (OStorage st) ->
  py_getitem (VRef n) k h = Storage___getitem__ n k h.
Proof. intros E. unfold py_getitem at 1. run. reflexivity. Qed.

(** The helper of [__getitem__] on a proxy whose mapping lacks the first
    segment: every level is created on the way, nothing raises, and the walk
    ends on a new proxy over a new empty mapping. *)
Lemma getitem_helper_unset fuel :
  forall key h n b es p pn ro,
    String.length key < fuel ->
    hget h n = Some (OStorage (mkStorage (VRef b) p pn ro)) ->
    hget h b = Some (ODict es) ->
    dict_mem es (PyStr.head key) = false ->
    exists m mb mp mpn h',
      getitem_helper fuel key (VRef n) h = Ret (VRef m) h'
      /\ List.length h <= m
      /\ hget h' m = Some (OStorage (mkStorage (VRef mb) mp mpn (VBool false)))
      /\ List.length h <= mb
      /\ hget h' mb = Some (ODict []).
Proof.
  induction fuel as [|fuel IH]; intros key h n b es p pn ro Hlen Hn Hb Hm;
    [lia|].
  assert (Hviv : forall k, dict_mem es k = false ->
            Storage___getitem__ n k h
            = Ret (VRef (S (List.length h))) (vivified h b es k)).
  { intros k Hk. unfold Storage___getitem__.
    eapply node_get_vivify; eauto.
    left. unfold dict_mem in Hk. destruct (dict_get es k); congruence. }
  assert (Hnew : forall k,
            hget (vivified h b es k) (S (List.length h))
            = Some (OStorage (mkStorage (VRef (List.length h)) (VRef b)
                                        (VStr k) (VBool false)))
            /\ hget (vivified h b es k) (List.length h) = Some (ODict [])).
  { intros k; unfold vivified; split; repeat heap_step; reflexivity. }
  cbn [getitem_helper]. destruct (PyStr.has_dot key) eqn:Hdot.
  - erewrite bind_Ret
      by (erewrite py_getitem_node by eauto; apply Hviv; auto).
    destruct (Hnew (PyStr.head key)) as [Hn1 Hb1].
    destruct (IH (PyStr.rest key) _ _ _ _ _ _ _
                 ltac:(pose proof (rest_shorter key Hdot); lia)
                 Hn1 Hb1 eq_refl)
      as (m & mb & mp & mpn & h' & E & Hm1 & Hm2 & Hm3 & Hm4).
    exists m, mb, mp, mpn, h'. rewrite E.
    assert (List.length (vivified h b es (PyStr.head key))
            = S (S (List.length h)))
      by (unfold vivified; rewrite hset_length, !length_app_one; auto).
    repeat split; auto; lia.
  - rewrite (head_no_dot key Hdot) in Hm.
    erewrite py_getitem_node by eauto. rewrite (Hviv key Hm).
    destruct (Hnew key) as [Hn1 Hb1].
    do 5 eexists. split; [reflexivity|]. repeat split; eauto.
Qed.

(** C7: when the first segment of [key] is not in the document (so that no
    segment is set at its level), [s[key]] raises nothing and returns a proxy
    that did not exist before, over a new mapping without entries: what is
    seen through it is the empty mapping. *)
Theorem getitem_unset_path (s : Settings_obj) (h : heap) (b : loc)
  (es : list (string * value)) (p pn ro : value) (key : string) :
  hget h (_Settings__storage s)
  = Some (OStorage (mkStorage (VRef b) p pn ro)) ->
  hget h b = Some (ODict es) ->
  dict_mem es (PyStr.head key) = false ->
  exists m mb mp mpn h',
    Settings___getitem__ s key h
    = SRet (VRef m) (Settings___watcher_on (Settings___watcher_off s)) h'
    /\ hget h m = None
    /\ hget h' m = Some (OStorage (mkStorage (VRef mb) mp mpn (VBool false)))
    /\ hget h mb = None
    /\ hget h' mb = Some (ODict [])
    /\ mapping_view h' (VRef m) = Some [].
Proof.
  intros Hn Hb Hm.
  destruct (getitem_helper_unset (S (String.length key)) key h _ b es p pn ro
              ltac:(lia) Hn Hb Hm)
    as (m & mb & mp & mpn & h' & E & H1 & H2 & H3 & H4).
  exists m, mb, mp, mpn, h'.
  unfold Settings___getitem__, between_watcher_calls. rewrite E.
  repeat split; auto; try (apply hget_fresh; auto).
  unfold mapping_view. rewrite H2. cbn. rewrite H4. reflexivity.
Qed.

Lemma getitem_unset_path_witness :
  exists m mb mp mpn h',
    Settings___getitem__ (fst empty_store) "a.b.c" (snd empty_store)
    = SRet (VRef m)
        (Settings___watcher_on (Settings___watcher_off (fst empty_store))) h'
    /\ hget (snd empty_store) m = None
    /\ hget h' m = Some (OStorage (mkStorage (VRef mb) mp mpn (VBool false)))
    /\ hget (snd empty_store) mb = None
    /\ hget h' mb = Some (ODict [])
    /\ mapping_view h' (VRef m) = Some [].
Proof.
  apply (getitem_unset_path (fst empty_store) (snd empty_store) 0 []
           VNone (VStr EmptyString) (VBool false) "a.b.c");
    reflexivity.
Defined.

(** ** Two-segment keys *)

Section DottedKey.

Variables (a r : string).
Hypothesis Ha : PyStr.has_dot a = false.

Lemma has_dot_dotted : PyStr.has_dot (a ++ String PyStr.dot r)%string = true.
Proof.
  clear Ha. induction a as [|c t IH]; simpl; auto.
  destruct (Ascii.eqb c PyStr.dot); auto.
Qed.

Lemma split_dotted :
  PyStr.split (a ++ String PyStr.dot r)%string = a :: PyStr.split r.
Proof.
  induction a as [|c t IH]; simpl in *; auto.
  destruct (Ascii.eqb c PyStr.dot); try discriminate.
  rewrite (IH Ha). reflexivity.
Qed.

Lemma head_dotted : PyStr.head (a ++ String PyStr.dot r)%string = a.
Proof. unfold PyStr.head; rewrite split_dotted; reflexivity. Qed.

Lemma rest_dotted : PyStr.rest (a ++ String PyStr.dot r)%string = r.
Proof.
  unfold PyStr.rest; rewrite split_dotted; simpl; apply join_split.
Qed.

Lemma length_dotted :
  String.length (a ++ String PyStr.dot r)%string
  = S (String.length a + String.length r).
Proof.
  clear Ha. induction a as [|c t IH]; simpl; auto.
Qed.

End DottedKey.

(** ** Writes through a proxy, with their frame *)

Section NodeWriteFrame.

Variables (h : heap) (n b : loc) (es : list (string * value)).
Variables (p pn : value) (ro : bool).
Hypothesis Hn :
  hget h n = Some (OStorage (mkStorage (VRef b) p pn (VBool ro))).
Hypothesis Hb : hget h b = Some (ODict es).
Hypothesis Hp : parent_ok h b p pn.

(** A write that the read-only test lets through returns; it changes the
    backing mapping, and the entry of the parent mapping when the proxy has a
    parent and a non-empty parent key, and nothing else. *)
Lemma node_set_spec k v :
  is_private k = false ->
  ro && dict_mem es k = false ->
  exists h1,
    Storage___setattr__ n k v h = Ret tt h1
    /\ List.length h1 = List.length h
    /\ hget h1 b = Some (ODict (dict_set es k v))
    /\ (forall l, l <> b -> p <> VRef l -> hget h1 l = hget h l)
    /\ (forall pb pes name,
          p = VRef pb -> pn = VStr name -> hget h pb = Some (ODict pes) ->
          hget h1 pb
          = Some (ODict (if String.eqb name EmptyString then pes
                         else dict_set pes name (VRef b)))).
Proof.
  intros Hk Hro. unfold Storage___setattr__.
  rewrite (bind_Ret _ _ _ _ _ (load_storage_at _ _ _ Hn)). rewrite Hk.
  mred.
  assert (Hc : (if ro then raw_contains (VRef b) k
                else fun h0 => Ret false h0) h
               = Ret (ro && dict_mem es k) h).
  { destruct ro; [apply (raw_contains_dict _ _ _ _ Hb) | reflexivity]. }
  rewrite Hc, Hro.
  rewrite (raw_setitem_dict _ _ _ _ _ Hb).
  set (h' := hset h b (ODict (dict_set es k v))).
  assert (Hn' : hget h' n
                = Some (OStorage (mkStorage (VRef b) p pn (VBool ro))))
    by (unfold h'; heap_step; auto).
  assert (Hb' : hget h' b = Some (ODict (dict_set es k v)))
    by (unfold h'; heap_step; auto).
  assert (Hfr : forall l, l <> b -> hget h' l = hget h l)
    by (intros l Hl; unfold h'; apply hget_hset_other; auto).
  destruct Hp as [-> | (pb & pes & name & -> & Hne & Hpb & ->)].
  - rewrite (get_parent_none _ _ _ _ _ Hn').
    exists h'. repeat split; auto.
    + unfold h'; apply hset_length.
    + intros; discriminate.
  - rewrite (get_parent_named _ _ _ _ _ _ Hn').
    assert (Hpb' : hget h' pb = Some (ODict pes))
      by (rewrite Hfr; auto).
    destruct (String.eqb name EmptyString) eqn:En; cbv beta iota delta [is_none].
    + exists h'. repeat split; auto.
      * unfold h'; apply hset_length.
      * intros pb0 pes0 name0 E1 E2 E3.
        injection E1 as <-. injection E2 as <-. rewrite En. congruence.
    + rewrite (set_parent_value_named _ _ _ _ _ _ _ _ Hn' Hpb').
      eexists. split; [reflexivity|]. repeat split.
      * unfold h'; rewrite !hset_length; auto.
      * heap_step; auto.
      * intros l Hl Hpl. rewrite hget_hset_other by congruence. auto.
      * intros pb0 pes0 name0 E1 E2 E3.
        injection E1 as <-. injection E2 as <-. rewrite En.
        heap_step. congruence.
Qed.

End NodeWriteFrame.

(** ** Rebuilding a mapping entry by entry *)

Section Rebuild.

Lemma dict_set_idem es k v w :
  dict_set (dict_set es k v) k w = dict_set es k w.
Proof.
  induction es as [|[k' v'] t IH]; simpl.
  - rewrite String.eqb_refl; reflexivity.
  - destruct (String.eqb k' k) eqn:E; simpl; rewrite E; congruence.
Qed.

Lemma dict_mem_app_r es k v k' :
  dict_mem es k' = false -> k <> k' ->
  dict_mem (es ++ [(k, v)]) k' = false.
Proof.
  unfold dict_mem. induction es as [|[k0 v0] t IH]; simpl; intros Hm Hne.
  - destruct (String.eqb k k') eqn:E; auto.
    apply String.eqb_eq in E; contradiction.
  - destruct (String.eqb k0 k'); auto; discriminate.
Qed.

Lemma dict_get_app_absent pre suf k :
  dict_mem pre k = false -> dict_get (pre ++ suf) k = dict_get suf k.
Proof.
  unfold dict_mem. induction pre as [|[k0 v0] t IH]; simpl; auto.
  destruct (String.eqb k0 k); auto; discriminate.
Qed.

Lemma dict_mem_In es k : dict_mem es k = true <-> In k (dict_keys es).
Proof.
  unfold dict_mem, dict_keys. induction es as [|[k0 v0] t IH]; simpl.
  - split; [discriminate | tauto].
  - destruct (String.eqb k0 k) eqn:E.
    + apply String.eqb_eq in E. split; auto.
    + apply String.eqb_neq in E. rewrite IH. split; auto.
      intros [H | H]; auto; contradiction.
Qed.

Lemma dict_not_mem es k : ~ In k (dict_keys es) -> dict_mem es k = false.
Proof.
  intros H. destruct (dict_mem es k) eqn:E; auto.
  apply dict_mem_In in E; contradiction.
Qed.

(** Copying the entries of [ds] one by one, in order, into a mapping that
    already has the entries before them gives [ds] again. *)
Lemma rebuild_suffix suf :
  forall pre,
    NoDup (dict_keys (pre ++ suf)) ->
    fold_left
      (fun acc key =>
         dict_set acc key
                  (match dict_get (pre ++ suf) key with
                   | Some v => v
                   | None => VNone
                   end))
      (dict_keys suf) pre
    = pre ++ suf.
Proof.
  induction suf as [|[k v] t IH]; intros pre Hnd; simpl.
  - symmetry; apply app_nil_r.
  - assert (Hk : ~ In k (dict_keys pre)).
    { unfold dict_keys in *. rewrite map_app in Hnd. simpl in Hnd.
      apply NoDup_remove_2 in Hnd. intros Hin. apply Hnd.
      apply in_or_app; auto. }
    rewrite (dict_get_app_absent pre ((k, v) :: t) k (dict_not_mem _ _ Hk)).
    simpl. rewrite String.eqb_refl.
    rewrite (dict_set_absent pre k v (dict_not_mem _ _ Hk)).
    specialize (IH (pre ++ [(k, v)])).
    rewrite <- app_assoc in IH. simpl in IH. apply IH; auto.
Qed.

Lemma rebuild ds :
  NoDup (dict_keys ds) ->
  fold_left
    (fun acc key =>
       dict_set acc key
                (match dict_get ds key with Some v => v | None => VNone end))
    (dict_keys ds) []
  = ds.
Proof. intros H. apply (rebuild_suffix ds []); auto. Qed.

End Rebuild.

(** ** Reading a key that holds a plain mapping *)

Section Wrap.

Variables (b l : loc) (k : string) (ds : list (string * value)).
Hypothesis Hlb : l <> b.

Lemma copy_into_spec (m mb : loc) (keys : list string) :
  forall h acc esb,
    hget h m
    = Some (OStorage (mkStorage (VRef mb) (VRef b) (VStr k) (VBool false))) ->
    hget h mb = Some (ODict acc) ->
    hget h b = Some (ODict esb) ->
    hget h l = Some (ODict ds) ->
    l <> mb -> mb <> b ->
    (forall key, In key keys ->
                 is_private key = false /\ dict_mem ds key = true) ->
    exists h',
      copy_into m (VRef l) keys h = Ret tt h'
      /\ List.length h' = List.length h
      /\ hget h' mb
         = Some (ODict (fold_left
                          (fun a key =>
                             dict_set a key
                                      (match dict_get ds key with
                                       | Some v => v
                                       | None => VNone
                                       end))
                          keys acc))
      /\ hget h' b = Some (ODict (after_copy k keys esb mb))
      /\ (forall l', l' <> mb -> l' <> b -> hget h' l' = hget h l').
Proof.
  induction keys as [|key more IH]; intros h acc esb Hm Hmb Hb Hl Hlmb Hmbb Hk.
  - exists h. simpl. repeat split; auto.
  - destruct (Hk key (or_introl eq_refl)) as [Hpriv Hmem].
    unfold dict_mem in Hmem.
    destruct (dict_get ds key) as [v|] eqn:Ev; try discriminate.
    cbn [copy_into].
    rewrite (bind_Ret _ _ _ _ _ (raw_getitem_dict _ _ _ _ _ Hl Ev)).
    destruct (node_set_spec h m mb acc (VRef b) (VStr k) false Hm Hmb
                ltac:(right; exists b, esb, k; auto) key v Hpriv eq_refl)
      as (h1 & E1 & Hlen1 & Hmb1 & Hfr1 & Hpar1).
    unfold Storage___setitem__.
    rewrite (bind_Ret _ _ _ _ _ E1).
    assert (Hm1 : hget h1 m = hget h m)
      by (apply Hfr1; congruence).
    assert (Hl1 : hget h1 l = hget h l)
      by (apply Hfr1; congruence).
    specialize (Hpar1 b esb k eq_refl eq_refl Hb).
    destruct (IH h1 _ _ ltac:(rewrite Hm1; exact Hm) Hmb1 Hpar1
                 ltac:(rewrite Hl1; exact Hl) Hlmb Hmbb
                 ltac:(intros; apply Hk; right; auto))
      as (h' & E & Hlen & Hmb' & Hb' & Hfr').
    exists h'. rewrite E. repeat split; auto.
    + lia.
    + cbn [fold_left]. rewrite Ev. exact Hmb'.
    + rewrite Hb'. unfold after_copy.
      destruct (String.eqb k EmptyString); destruct more; auto.
      rewrite dict_set_idem. reflexivity.
    + intros l' H1 H2. rewrite Hfr' by auto. apply Hfr1; congruence.
Qed.

End Wrap.

Lemma node_get_wrap (h : heap) (n b l : loc) (es ds : list (string * value))
  (p pn ro : value) (k : string) :
  hget h n = Some (OStorage (mkStorage (VRef b) p pn ro)) ->
  hget h b = Some (ODict es) ->
  dict_get es k = Some (VRef l) ->
  hget h l = Some (ODict ds) ->
  l <> b ->
  (forall key, In key (dict_keys ds) -> is_private key = false) ->
  NoDup (dict_keys ds) ->
  let L := List.length h in
  exists h',
    Storage___getattr__ n k h = Ret (VRef (S L)) h'
    /\ List.length h' = S (S L)
    /\ hget h' (S L)
       = Some (OStorage (mkStorage (VRef L) (VRef b) (VStr k) (VBool false)))
    /\ hget h' L = Some (ODict ds)
    /\ hget h' b = Some (ODict (after_copy k (dict_keys ds) es L))
    /\ (forall l', l' < L -> l' <> b -> hget h' l' = hget h l').
Proof.
  intros Hn Hb Hk Hl Hlb Hpriv Hnd L.
  set (h2 := (h ++ [ODict []])
               ++ [OStorage (mkStorage (VRef L) (VRef b) (VStr k)
                                       (VBool false))]).
  assert (Hm2 : hget h2 (S L)
                = Some (OStorage (mkStorage (VRef L) (VRef b) (VStr k)
                                            (VBool false))))
    by (unfold h2, L; repeat heap_step; reflexivity).
  assert (Hmb2 : hget h2 L = Some (ODict []))
    by (unfold h2, L; repeat heap_step; reflexivity).
  assert (Hb2 : hget h2 b = Some (ODict es))
    by (unfold h2; repeat heap_step; reflexivity).
  assert (Hl2 : hget h2 l = Some (ODict ds))
    by (unfold h2; repeat heap_step; reflexivity).
  assert (HlL : l <> L) by (unfold L; heap_side).
  assert (HLb : L <> b) by (unfold L; heap_side).
  destruct (copy_into_spec b l k ds Hlb (S L) L (dict_keys ds) h2 [] es
              Hm2 Hmb2 Hb2 Hl2 HlL HLb)
    as (h' & E & Hlen & Hmb' & Hb' & Hfr).
  { intros key Hin. split; auto. apply dict_mem_In; auto. }
  exists h'.
  assert (Hlen2 : List.length h2 = S (S L))
    by (unfold h2; rewrite !length_app_one; reflexivity).
  split.
  - unfold Storage___getattr__, Storage___init__, load_storage, raw_contains,
      raw_getitem, is_plain_mapping, dict_mem.
    run. repeat (rewrite Hk; run).
    fold L. fold h2. rewrite E. reflexivity.
  - assert (HbL : b < L) by (unfold L; eapply hget_bound; eauto).
    repeat split; auto.
    + lia.
    + rewrite Hfr by lia. exact Hm2.
    + rewrite Hmb'. rewrite rebuild; auto.
    + intros l' H1 H2. rewrite Hfr by lia.
      unfold h2. rewrite !hget_app_lt; auto.
      rewrite length_app_one. fold L. lia.
Qed.


(** ** Dotted writes under one key *)

Lemma py_setitem_dict h l es k v :
  hget h l = Some (ODict es) ->
  py_setitem (VRef l) k v h = Ret tt (hset h l (ODict (dict_set es k v))).
Proof.
  intros E. unfold py_setitem. run.
  apply raw_setitem_dict; auto.
Qed.

Lemma py_setitem_node h n st k v :
  hget h n = Some (OStorage st) ->
  py_setitem (VRef n) k v h = Storage___setitem__ n k v h.
Proof. intros E. unfold py_setitem at 1. run. reflexivity. Qed.

Lemma or_new_mapping_node h n b p pn ro es :
  hget h n = Some (OStorage (mkStorage (VRef b) p pn ro)) ->
  hget h b = Some (ODict es) ->
  or_new_mapping (VRef n) h
  = match es with
    | [] => Ret (VRef (List.length h)) (h ++ [ODict []])
    | _ :: _ => Ret (VRef n) h
    end.
Proof.
  intros Hn Hb. unfold or_new_mapping. run.
  rewrite (raw_len_dict _ _ _ Hb). destruct es; reflexivity.
Qed.

(** The last level of the helper of [__setitem__]. *)
Lemma setitem_helper_leaf fuel d r h h1 h2 item val :
  PyStr.has_dot item = false ->
  or_new_mapping d h = Ret r h1 ->
  py_setitem r item val h1 = Ret tt h2 ->
  setitem_helper (S fuel) d item val h = Ret r h2.
Proof.
  intros Hdot E1 E2. cbn [setitem_helper]. rewrite Hdot.
  unfold bind. rewrite E1, E2. reflexivity.
Qed.

(** A two-segment write under a key that the document does not have: the
    document gets a new plain mapping with the one entry. *)
Lemma setitem_new_branch s h doc es a b v :
  root_over s h doc es false ->
  dict_mem es a = false ->
  PyStr.has_dot a = false -> PyStr.has_dot b = false ->
  is_private a = false ->
  exists h1 l,
    Settings___setitem__ s (a ++ String PyStr.dot b)%string v h
    = SRet tt (Settings___watcher_on (Settings___watcher_off s)) h1
    /\ root_over s h1 doc (es ++ [(a, VRef l)]) false
    /\ hget h1 l = Some (ODict [(b, v)])
    /\ l <> doc.
Proof.
  intros [Hn Hd] Hm Ha Hb Hpa.
  unfold Settings___setitem__, between_watcher_calls.
  rewrite has_dot_dotted, head_dotted, rest_dotted, length_dotted by auto.
  set (L := List.length h).
  assert (Hget : Storage___getitem__ (_Settings__storage s) a h
                 = Ret (VRef (S L)) (vivified h doc es a)).
  { eapply node_get_vivify; eauto.
    left. unfold dict_mem in Hm. destruct (dict_get es a); congruence. }
  rewrite (bind_Ret _ _ _ _ _ Hget).
  set (hv := vivified h doc es a).
  assert (Hlen : List.length hv = S (S L))
    by (unfold hv, vivified; rewrite hset_length, !length_app_one; auto).
  assert (Hn1 : hget hv (S L)
                = Some (OStorage (mkStorage (VRef L) (VRef doc) (VStr a)
                                            (VBool false))))
    by (unfold hv, vivified, L; repeat heap_step; reflexivity).
  assert (Hb1 : hget hv L = Some (ODict []))
    by (unfold hv, vivified, L; repeat heap_step; reflexivity).
  assert (Hr1 : hget hv (_Settings__storage s) = hget h (_Settings__storage s))
    by (unfold hv, vivified; repeat heap_step; auto).
  assert (Hd1 : hget hv doc = Some (ODict (dict_set es a (VRef (S L)))))
    by (unfold hv, vivified; repeat heap_step; auto).
  assert (Hnew : hget (hv ++ [ODict []]) (S (S L)) = Some (ODict []))
    by (apply hget_app_eq; auto).
  rewrite (bind_Ret _ _ _ _ _
             (setitem_helper_leaf _ _ _ _ _ _ _ _ Hb
                (eq_trans (or_new_mapping_node _ _ _ _ _ _ _ Hn1 Hb1)
                          ltac:(rewrite Hlen; reflexivity))
                (py_setitem_dict _ _ _ _ _ Hnew))).
  set (h4 := hset (hv ++ [ODict []]) (S (S L)) (ODict (dict_set [] b v))).
  assert (HdL : doc < L) by (unfold L; eapply hget_bound; eauto).
  assert (HrL : _Settings__storage s < L)
    by (unfold L; eapply hget_bound; eauto).
  assert (Hrd : doc <> _Settings__storage s) by congruence.
  assert (Hn4 : hget h4 (_Settings__storage s)
                = Some (OStorage (mkStorage (VRef doc) VNone (VStr EmptyString)
                                            (VBool false)))).
  { unfold h4. rewrite hget_hset_other by lia.
    rewrite hget_app_lt by lia. congruence. }
  assert (Hd4 : hget h4 doc = Some (ODict (dict_set es a (VRef (S L))))).
  { unfold h4. rewrite hget_hset_other by lia.
    rewrite hget_app_lt by lia. auto. }
  assert (Hlen4 : List.length h4 = S (S (S L)))
    by (unfold h4; rewrite hset_length, length_app_one; lia).
  unfold Storage___setitem__.
  rewrite (node_set_root h4 _ doc _ VNone (VStr EmptyString) (VBool false)
             Hn4 Hd4 a (VRef (S (S L))) eq_refl Hpa (or_introl eq_refl)).
  do 2 eexists. split; [reflexivity|]. repeat split.
  - rewrite hget_hset_other by auto. exact Hn4.
  - rewrite hget_hset_same by lia.
    rewrite dict_set_idem, dict_set_absent by auto. reflexivity.
  - rewrite hget_hset_other by lia. unfold h4.
    rewrite hget_hset_same by (rewrite length_app_one; lia). reflexivity.
  - lia.
Qed.

(** A two-segment write under a key that holds a plain mapping with at least
    one entry: the document then holds, under that key, a proxy whose backing
    mapping has the old entries and the new one. *)
Lemma setitem_sibling s h doc es l ds a c v :
  root_over s h doc es false ->
  dict_get es a = Some (VRef l) ->
  hget h l = Some (ODict ds) -> l <> doc -> ds <> [] ->
  (forall key, In key (dict_keys ds) -> is_private key = false) ->
  NoDup (dict_keys ds) ->
  PyStr.has_dot a = false -> PyStr.has_dot c = false ->
  is_private a = false -> is_private c = false ->
  exists h2 m mb,
    Settings___setitem__ s (a ++ String PyStr.dot c)%string v h
    = SRet tt (Settings___watcher_on (Settings___watcher_off s)) h2
    /\ root_over s h2 doc (dict_set es a (VRef m)) false
    /\ hget h2 m
       = Some (OStorage (mkStorage (VRef mb) (VRef doc) (VStr a)
                                   (VBool false)))
    /\ hget h2 mb = Some (ODict (dict_set ds c v))
    /\ hget h m = None.
Proof.
  intros [Hn Hd] Hk Hl Hld Hne Hpriv Hnd Ha Hc Hpa Hpc.
  unfold Settings___setitem__, between_watcher_calls.
  rewrite has_dot_dotted, head_dotted, rest_dotted, length_dotted by auto.
  set (L := List.length h).
  set (root := _Settings__storage s) in *.
  assert (HdL : doc < L) by (unfold L; eapply hget_bound; eauto).
  assert (HrL : root < L) by (unfold L; eapply hget_bound; eauto).
  assert (Hrd : root <> doc) by congruence.
  destruct (node_get_wrap h root doc l es ds _ _ _ a Hn Hd Hk Hl Hld Hpriv Hnd)
    as (h' & E & Hlen' & Hm' & Hmb' & Hd' & Hfr').
  fold L in E, Hlen', Hm', Hmb', Hd', Hfr'.
  unfold Storage___getitem__. rewrite (bind_Ret _ _ _ _ _ E).
  set (X := after_copy a (dict_keys ds) es L) in *.
  destruct (node_set_spec h' (S L) L ds (VRef doc) (VStr a) false Hm' Hmb'
              ltac:(right; exists doc, X, a; repeat split; auto; lia)
              c v Hpc eq_refl)
    as (h1 & E1 & Hlen1 & Hmb1 & Hfr1 & Hpar1).
  specialize (Hpar1 doc X a eq_refl eq_refl Hd').
  assert (Hor : or_new_mapping (VRef (S L)) h' = Ret (VRef (S L)) h').
  { rewrite (or_new_mapping_node _ _ _ _ _ _ _ Hm' Hmb').
    destruct ds; congruence. }
  rewrite (bind_Ret _ _ _ _ _
             (setitem_helper_leaf _ _ _ _ _ _ _ _ Hc Hor
                (eq_trans (py_setitem_node _ _ _ _ _ Hm') E1))).
  assert (Hr1 : hget h1 root
                = Some (OStorage (mkStorage (VRef doc) VNone
                                            (VStr EmptyString) (VBool false)))).
  { rewrite Hfr1 by (try congruence; lia). rewrite Hfr' by auto. exact Hn. }
  unfold Storage___setitem__.
  rewrite (node_set_root h1 root doc _ VNone (VStr EmptyString) (VBool false)
             Hr1 Hpar1 a (VRef (S L)) eq_refl Hpa (or_introl eq_refl)).
  exists (hset h1 doc
            (ODict (dict_set (if String.eqb a EmptyString then X
                              else dict_set X a (VRef L)) a (VRef (S L))))),
    (S L), L.
  split; [reflexivity|].
  assert (Hdl1 : doc < List.length h1) by lia.
  repeat split.
  - rewrite hget_hset_other by auto. exact Hr1.
  - rewrite hget_hset_same by auto. do 2 f_equal.
    unfold X, after_copy.
    destruct (dict_keys ds) eqn:Ek;
      [destruct ds; [congruence | discriminate]|].
    destruct (String.eqb a EmptyString); rewrite ?dict_set_idem; reflexivity.
  - rewrite hget_hset_other by lia.
    rewrite Hfr1 by (try congruence; lia). exact Hm'.
  - rewrite hget_hset_other by lia. exact Hmb1.
  - apply hget_fresh; unfold L; lia.
Qed.

(** Reading an undotted key that holds a proxy returns that proxy. *)
Lemma getitem_stored_node s h doc es p pn ro a m st :
  hget h (_Settings__storage s)
  = Some (OStorage (mkStorage (VRef doc) p pn ro)) ->
  hget h doc = Some (ODict es) ->
  dict_get es a = Some (VRef m) ->
  hget h m = Some (OStorage st) ->
  PyStr.has_dot a = false ->
  Settings___getitem__ s a h
  = SRet (VRef m) (Settings___watcher_on (Settings___watcher_off s)) h.
Proof.
  intros Hn Hd Hk Hm Ha.
  unfold Settings___getitem__, between_watcher_calls.
  cbn [getitem_helper]. rewrite Ha.
  rewrite (py_getitem_node _ _ _ _ Hn). unfold Storage___getitem__.
  rewrite (node_get_value h _ doc es p pn ro Hn Hd a (VRef m) Hk);
    try reflexivity; try congruence;
    intros; match goal with E : VRef _ = VRef _ |- _ =>
                              injection E as <- end; congruence.
Qed.

(** C2, amended: in a store that is not read-only and has no key [a], after
    [s[a + "." + b] = v1] and [s[a + "." + c] = v2] (both return), what
    [s[a]] returns shows exactly the entries [(b, v1)] and [(c, v2)], in
    that order: the second write keeps the entry of the first.  The segments
    are any undotted names other than the private attribute names of the
    proxy, with [b] and [c] different. *)
Theorem dotted_writes_keep_siblings (s : Settings_obj) (h : heap) (doc : loc)
  (es : list (string * value)) (a b c : string) (v1 v2 : value) :
  root_over s h doc es false ->
  dict_mem es a = false ->
  PyStr.has_dot a = false -> PyStr.has_dot b = false ->
  PyStr.has_dot c = false ->
  is_private a = false -> is_private b = false -> is_private c = false ->
  b <> c ->
  exists s1 h1 s2 h2 r s3 h3,
    Settings___setitem__ s (a ++ String PyStr.dot b)%string v1 h
    = SRet tt s1 h1
    /\ Settings___setitem__ s1 (a ++ String PyStr.dot c)%string v2 h1
       = SRet tt s2 h2
    /\ Settings___getitem__ s2 a h2 = SRet r s3 h3
    /\ mapping_view h3 r = Some [(b, v1); (c, v2)].
Proof.
  intros Hroot Hm Ha Hb Hc Hpa Hpb Hpc Hbc.
  destruct (setitem_new_branch s h doc es a b v1 Hroot Hm Ha Hb Hpa)
    as (h1 & l & E1 & Hroot1 & Hl1 & Hld).
  set (s1 := Settings___watcher_on (Settings___watcher_off s)) in *.
  assert (Hroot1' : root_over s1 h1 doc (es ++ [(a, VRef l)]) false)
    by exact Hroot1.
  assert (Hk1 : dict_get (es ++ [(a, VRef l)]) a = Some (VRef l)).
  { rewrite dict_get_app_absent by auto. simpl.
    rewrite String.eqb_refl. reflexivity. }
  destruct (setitem_sibling s1 h1 doc _ l [(b, v1)] a c v2 Hroot1' Hk1 Hl1 Hld)
    as (h2 & m & mb & E2 & [Hn2 Hd2] & Hm2 & Hmb2 & _); auto;
    try discriminate.
  { intros key [<- | []]; auto. }
  { repeat constructor; simpl; tauto. }
  set (s2 := Settings___watcher_on (Settings___watcher_off s1)) in *.
  exists s1, h1, s2, h2, (VRef m),
    (Settings___watcher_on (Settings___watcher_off s2)), h2.
  repeat split; auto.
  - eapply (getitem_stored_node s2); eauto.
    apply dict_get_set_same.
  - unfold mapping_view. rewrite Hm2. cbn. rewrite Hmb2.
    simpl. destruct (String.eqb b c) eqn:E; auto.
    apply String.eqb_eq in E; contradiction.
Qed.

Lemma dotted_writes_keep_siblings_witness :
  exists s1 h1 s2 h2 r s3 h3,
    Settings___setitem__ (fst empty_store) "a.b" (VInt 1) (snd empty_store)
    = SRet tt s1 h1
    /\ Settings___setitem__ s1 "a.c" (VInt 2) h1 = SRet tt s2 h2
    /\ Settings___getitem__ s2 "a" h2 = SRet r s3 h3
    /\ mapping_view h3 r = Some [("b", VInt 1); ("c", VInt 2)].
Proof.
  apply (dotted_writes_keep_siblings (fst empty_store) (snd empty_store) 0 []
           "a" "b" "c" (VInt 1) (VInt 2));
    try reflexivity; try (split; reflexivity); discriminate.
Defined.


(** ** Undotted writes read back *)

(** C3 fails for [None]: after [s["k"] = None], [s["k"]] returns a new empty
    proxy, which is not [None] and shows no mapping that [None] would. *)
Lemma none_is_not_read_back : ~ undotted_write_reads_back_every_value.
Proof.
  intros H.
  destruct (H "k" VNone _ _ eq_refl eq_refl) as (r & s2 & h2 & E & Heq).
  vm_compute in E. injection E as <- _ <-.
  destruct Heq as [Heq | (es1 & es2 & _ & Heq & _)]; discriminate.
Qed.

(** C3, amended: for an undotted key that is not a private attribute name,
    in a store where the write is allowed (not read-only, or the key not yet
    stored), and for a value that is a scalar, a proxy, or a plain mapping
    other than the document of the store with no private attribute name
    among its keys (and each key once), [s[p] = v] returns and [s[p]] then
    returns [v] itself when [v] is a scalar or a proxy, and when [v] is a
    plain mapping a proxy that did not exist before, showing exactly the
    entries of [v]. *)
Theorem undotted_write_reads_back (s : Settings_obj) (h : heap) (doc : loc)
  (es : list (string * value)) (ro : bool) (p : string) (v : value) :
  root_over s h doc es ro ->
  PyStr.has_dot p = false -> is_private p = false ->
  ro && dict_mem es p = false ->
  readable_back h doc v ->
  exists s1 h1 r s2 h2,
    Settings___setitem__ s p v h = SRet tt s1 h1
    /\ Settings___getitem__ s1 p h1 = SRet r s2 h2
    /\ read_back h h2 v r.
Proof.
  intros [Hn Hd] Hdot Hpriv Hro Hv.
  set (root := _Settings__storage s) in *.
  assert (Hrd : root <> doc) by congruence.
  assert (Hset : Storage___setitem__ root p v h
                 = Ret tt (hset h doc (ODict (dict_set es p v)))).
  { eapply node_set_root; eauto.
    destruct ro; auto. }
  set (h1 := hset h doc (ODict (dict_set es p v))) in *.
  assert (Hn1 : hget h1 root
                = Some (OStorage (mkStorage (VRef doc) VNone
                                            (VStr EmptyString) (VBool ro))))
    by (unfold h1; rewrite hget_hset_other by auto; exact Hn).
  assert (Hd1 : hget h1 doc = Some (ODict (dict_set es p v)))
    by (unfold h1; apply hget_hset_same; eapply hget_bound; eauto).
  assert (Hfr : forall l, l <> doc -> hget h1 l = hget h l)
    by (intros; unfold h1; apply hget_hset_other; auto).
  set (s1 := Settings___watcher_on (Settings___watcher_off s)).
  assert (E1 : Settings___setitem__ s p v h = SRet tt s1 h1).
  { unfold Settings___setitem__, between_watcher_calls.
    rewrite Hdot. fold root. rewrite Hset. reflexivity. }
  assert (Hget : forall r h2,
            Storage___getitem__ root p h1 = Ret r h2 ->
            Settings___getitem__ s1 p h1
            = SRet r (Settings___watcher_on (Settings___watcher_off s1)) h2).
  { intros r h2 E. unfold Settings___getitem__, between_watcher_calls.
    cbn [getitem_helper]. rewrite Hdot.
    change (_Settings__storage (Settings___watcher_off s1)) with root.
    rewrite (py_getitem_node _ _ _ _ Hn1), E. reflexivity. }
  assert (Hplain : forall l ds,
            v = VRef l -> hget h l = Some (ODict ds) ->
            l <> doc -> NoDup (dict_keys ds) ->
            (forall key, In key (dict_keys ds) -> is_private key = false) ->
            exists r h2, Storage___getitem__ root p h1 = Ret r h2
                         /\ read_back h h2 v r).
  { intros l ds -> Hl Hld Hnd Hkeys.
    destruct (node_get_wrap h1 root doc l _ ds _ _ _ p Hn1 Hd1
                (dict_get_set_same _ _ _)
                ltac:(rewrite Hfr by auto; exact Hl) Hld Hkeys Hnd)
      as (h2 & E & Hlen & Hm & Hmb & _ & Hfr2).
    exists (VRef (S (List.length h1))), h2. split; [exact E|].
    unfold read_back. rewrite Hl.
    exists (S (List.length h1)). eexists. repeat split.
    - apply hget_fresh. unfold h1. rewrite hset_length. lia.
    - exact Hm.
    - unfold mapping_view. rewrite Hm.
      cbv beta iota delta [_Storage__storage]. rewrite Hmb. reflexivity. }
  assert (Hsame : v <> VNone ->
            (forall l ds, v = VRef l -> hget h l <> Some (ODict ds)) ->
            (forall l, v = VRef l -> hget h l <> None) ->
            exists r h2, Storage___getitem__ root p h1 = Ret r h2
                         /\ read_back h h2 v r).
  { intros H1 H2 H3. exists v, h1. split.
    2:{ unfold read_back. destruct v as [| | | |l]; auto.
        destruct (hget h l) as [[ds|st]|] eqn:El; auto.
        destruct (H2 l ds eq_refl El). }
    eapply node_get_value; eauto.
    - apply dict_get_set_same.
    - intros l ds E El. subst v.
      destruct (Nat.eq_dec l doc) as [-> | Hne].
      + apply (H2 doc es eq_refl Hd).
      + rewrite Hfr in El by auto. apply (H2 l ds eq_refl El).
    - intros l E El. subst v.
      destruct (Nat.eq_dec l doc) as [-> | Hne].
      + congruence.
      + rewrite Hfr in El by auto. apply (H3 l eq_refl El). }
  assert (Hfin : exists r h2, Storage___getitem__ root p h1 = Ret r h2
                              /\ read_back h h2 v r).
  { destruct v as [| | | |l]; try contradiction;
      try (apply Hsame; [discriminate | discriminate | discriminate]).
    simpl in Hv. destruct (hget h l) as [[ds|st]|] eqn:El; try contradiction.
    - destruct Hv as (H1 & H2 & H3). eapply Hplain; eauto.
    - apply Hsame; try discriminate.
      + intros l0 ds E. injection E as <-. congruence.
      + intros l0 E. injection E as <-. congruence. }
  destruct Hfin as (r & h2 & E & Heq).
  exists s1, h1, r, (Settings___watcher_on (Settings___watcher_off s1)), h2.
  repeat split; auto.
Qed.

Lemma undotted_write_reads_back_witness :
  exists s1 h1 r s2 h2,
    Settings___setitem__ (fst readonly_nested_store) "copy" (VRef 0)
                         (snd readonly_nested_store)
    = SRet tt s1 h1
    /\ Settings___getitem__ s1 "copy" h1 = SRet r s2 h2
    /\ read_back (snd readonly_nested_store) h2 (VRef 0) r.
Proof.
  apply (undotted_write_reads_back (fst readonly_nested_store)
           (snd readonly_nested_store) 1 [("foo", VRef 0)] true "copy"
           (VRef 0)).
  - split; reflexivity.
  - reflexivity.
  - reflexivity.
  - reflexivity.
  - simpl. split; [discriminate|]. split.
    + repeat constructor; simpl; tauto.
    + intros key [<- | []]; reflexivity.
Defined.


(** ** Membership of a path *)


(** With a string stored under ["a"], ["a.b" in s] is a substring test. *)
Lemma contains_substring_below_string :
  let st := built (Settings___init__ [("a", VStr "xbx")] false []) in
  Settings___contains__ (fst st) "a.b" (snd st) = Ret true (snd st).
Proof. reflexivity. Qed.

Section KeysKept.




Lemma keys_kept_replace h b es k v :
  hget h b = Some (ODict es) -> dict_mem es k = true ->
  keys_kept h (hset h b (ODict (dict_set es k v))).
Proof.
  intros Hb Hk. split.
  - intros l es0 E. destruct (Nat.eq_dec l b) as [-> | Hne].
    + rewrite hget_hset_same by (eapply hget_bound; eauto).
      eexists; split; eauto.
      rewrite dict_keys_set_present by auto. congruence.
    + rewrite hget_hset_other by auto. eauto.
  - intros l st E. rewrite hget_hset_other by congruence. auto.
Qed.


End KeysKept.





Lemma py_contains_node h n b p pn ro es k :
  hget h n = Some (OStorage (mkStorage (VRef b) p pn ro)) ->
  hget h b = Some (ODict es) ->
  py_contains (VRef n) k h = Ret (dict_mem es k) h.
Proof.
  intros Hn Hb. unfold py_contains. run.
  eapply node_contains; eauto.
Qed.







(** * Further properties of the methods *)

(** ** Deleting *)

Section Delete.

Lemma dict_del_mem es k :
  NoDup (dict_keys es) -> dict_mem (dict_del es k) k = false.
Proof.
  unfold dict_keys. induction es as [|[k' v'] t IH]; simpl; intros Hnd; auto.
  inversion Hnd as [|x xs Hnot Hnd']; subst.
  destruct (String.eqb k' k) eqn:E.
  - apply String.eqb_eq in E; subst k'. apply dict_not_mem; auto.
  - unfold dict_mem in *. simpl. rewrite E. apply IH; auto.
Qed.

Lemma dict_get_del_other es k k' :
  k' <> k -> dict_get (dict_del es k) k' = dict_get es k'.
Proof.
  intros Hne. induction es as [|[k0 v0] t IH]; simpl; auto.
  destruct (String.eqb k0 k) eqn:E.
  - apply String.eqb_eq in E; subst k0.
    destruct (String.eqb k k') eqn:E'; auto.
    apply String.eqb_eq in E'; congruence.
  - simpl. destruct (String.eqb k0 k'); auto.
Qed.

Variables (s : Settings_obj) (h : heap) (doc : loc).
Variables (es : list (string * value)) (p pn ro : value).
Hypothesis Hn :
  hget h (_Settings__storage s)
  = Some (OStorage (mkStorage (VRef doc) p pn ro)).
Hypothesis Hd : hget h doc = Some (ODict es).

(** X1: [del s[k]] for a stored key removes the entry and nothing else; the
    read-only flag of the root proxy plays no part. *)
Theorem delitem_stored_key k :
  existsb (String.eqb k) (self_dict s) = false ->
  is_private k = false ->
  dict_mem es k = true ->
  NoDup (dict_keys es) ->
  Settings___delitem__ s k h
  = SRet tt (Settings___watcher_on (Settings___watcher_off s))
         (hset h doc (ODict (dict_del es k)))
  /\ dict_mem (dict_del es k) k = false
  /\ (forall k', k' <> k -> dict_get (dict_del es k) k' = dict_get es k').
Proof.
  intros Hattr Hpriv Hmem Hnd. split; [|split].
  - unfold Settings___delitem__. rewrite Hattr.
    rewrite (node_contains _ _ _ _ _ _ _ Hn Hd k), Hmem.
    unfold between_watcher_calls, Storage___delitem__, load_storage,
      raw_contains, raw_delitem.
    run. rewrite Hpriv. run. rewrite Hmem. run. rewrite Hmem. run.
    reflexivity.
  - apply dict_del_mem; auto.
  - intros; apply dict_get_del_other; auto.
Qed.

(** X2: [del s[k]] for a key that is not stored returns without raising and
    without touching the instance, the watcher flag included, or the heap. *)
Theorem delitem_missing_key k :
  existsb (String.eqb k) (self_dict s) = false ->
  dict_mem es k = false ->
  Settings___delitem__ s k h = SRet tt s h.
Proof.
  intros Hattr Hmem. unfold Settings___delitem__. rewrite Hattr.
  rewrite (node_contains _ _ _ _ _ _ _ Hn Hd k), Hmem. reflexivity.
Qed.

(** X3: A stored key named like a private attribute of the proxy cannot be
    deleted: [del s[k]] returns with the document as it was. *)
Theorem delitem_private_name k :
  existsb (String.eqb k) (self_dict s) = false ->
  is_private k = true ->
  dict_mem es k = true ->
  Settings___delitem__ s k h
  = SRet tt (Settings___watcher_on (Settings___watcher_off s)) h.
Proof.
  intros Hattr Hpriv Hmem. unfold Settings___delitem__. rewrite Hattr.
  rewrite (node_contains _ _ _ _ _ _ _ Hn Hd k), Hmem.
  unfold between_watcher_calls, Storage___delitem__, load_storage.
  run. rewrite Hpriv. run. reflexivity.
Qed.

End Delete.

Lemma delitem_stored_key_witness :
  Settings___delitem__ (fst readonly_nested_store) "foo"
                       (snd readonly_nested_store)
  = SRet tt
      (Settings___watcher_on
         (Settings___watcher_off (fst readonly_nested_store)))
      (hset (snd readonly_nested_store) 1
            (ODict (dict_del [("foo", VRef 0)] "foo")))
  /\ dict_mem (dict_del [("foo", VRef 0)] "foo") "foo" = false
  /\ (forall k', k' <> "foo" ->
                 dict_get (dict_del [("foo", VRef 0)] "foo") k'
                 = dict_get [("foo", VRef 0)] k').
Proof.
  apply (delitem_stored_key (fst readonly_nested_store)
           (snd readonly_nested_store) 1 [("foo", VRef 0)] VNone
           (VStr EmptyString) (VBool true));
    try reflexivity.
  repeat constructor; simpl; tauto.
Defined.

Lemma delitem_missing_key_witness :
  Settings___delitem__ (fst readonly_nested_store) "foo.bar"
                       (snd readonly_nested_store)
  = SRet tt (fst readonly_nested_store) (snd readonly_nested_store).
Proof.
  apply (delitem_missing_key (fst readonly_nested_store)
           (snd readonly_nested_store) 1 [("foo", VRef 0)] VNone
           (VStr EmptyString) (VBool true));
    reflexivity.
Defined.

Lemma delitem_private_name_witness :
  Settings___delitem__ (fst readonly_private_store) "_Storage__readonly"
                       (snd readonly_private_store)
  = SRet tt
      (Settings___watcher_on
         (Settings___watcher_off (fst readonly_private_store)))
      (snd readonly_private_store).
Proof.
  apply (delitem_private_name (fst readonly_private_store)
           (snd readonly_private_store) 0 [("_Storage__readonly", VInt 1)]
           VNone (VStr EmptyString) (VBool true));
    reflexivity.
Defined.

(** ** Reads that create what they look for *)

Lemma dict_keys_app es k v : dict_keys (es ++ [(k, v)]) = dict_keys es ++ [k].
Proof. unfold dict_keys. rewrite map_app. reflexivity. Qed.

Lemma node_len h n b es p pn ro :
  hget h n = Some (OStorage (mkStorage (VRef b) p pn ro)) ->
  hget h b = Some (ODict es) ->
  Storage___len__ n h = Ret (List.length es) h.
Proof.
  intros Hn Hb. unfold Storage___len__, load_storage. run.
  apply raw_len_dict; auto.
Qed.

Lemma getitem_undotted s h st k :
  hget h (_Settings__storage s) = Some (OStorage st) ->
  PyStr.has_dot k = false ->
  Settings___getitem__ s k h
  = between_watcher_calls s (Storage___getitem__ (_Settings__storage s) k) h.
Proof.
  intros Hn Hdot. unfold Settings___getitem__, between_watcher_calls.
  cbn [getitem_helper]. rewrite Hdot.
  rewrite (py_getitem_node _ _ _ _ Hn). reflexivity.
Qed.

(** X4: Reading an undotted key that is not stored stores it: the read returns a
    new proxy, the key is then the last of [keys()], is found by [in] and
    counted by [len], and a second read returns the same proxy and changes
    nothing. *)
Theorem getitem_stores_missing_key (s : Settings_obj) (h : heap) (doc : loc)
  (es : list (string * value)) (p pn ro : value) (k : string) :
  hget h (_Settings__storage s)
  = Some (OStorage (mkStorage (VRef doc) p pn ro)) ->
  hget h doc = Some (ODict es) ->
  PyStr.has_dot k = false ->
  dict_mem es k = false ->
  exists m h1,
    let s1 := Settings___watcher_on (Settings___watcher_off s) in
    Settings___getitem__ s k h = SRet (VRef m) s1 h1
    /\ hget h m = None
    /\ Settings_keys s h1 = Ret (dict_keys es ++ [k]) h1
    /\ Settings___contains__ s k h1 = Ret true h1
    /\ Settings___len__ s h1 = Ret (S (List.length es)) h1
    /\ Settings___getitem__ s1 k h1 = SRet (VRef m) s1 h1.
Proof.
  intros Hn Hd Hdot Hm.
  set (L := List.length h).
  assert (Hget : Storage___getitem__ (_Settings__storage s) k h
                 = Ret (VRef (S L)) (vivified h doc es k)).
  { eapply node_get_vivify; eauto.
    left. unfold dict_mem in Hm. destruct (dict_get es k); congruence. }
  set (h1 := vivified h doc es k) in *.
  pose proof (hget_bound _ _ _ Hn) as HnL.
  pose proof (hget_bound _ _ _ Hd) as HdL.
  assert (Hn1 : hget h1 (_Settings__storage s)
                = Some (OStorage (mkStorage (VRef doc) p pn ro))).
  { unfold h1, vivified. rewrite hget_hset_other by congruence.
    rewrite !hget_app_lt; auto. rewrite length_app_one; lia. }
  assert (Hd1 : hget h1 doc = Some (ODict (es ++ [(k, VRef (S L))]))).
  { unfold h1, vivified.
    rewrite hget_hset_same by (rewrite !length_app_one; lia).
    rewrite dict_set_absent by auto. reflexivity. }
  assert (Hm1 : hget h1 (S L)
                = Some (OStorage (mkStorage (VRef L) (VRef doc) (VStr k)
                                            (VBool false)))).
  { unfold h1, vivified, L. repeat heap_step. reflexivity. }
  exists (S L), h1. cbv zeta. repeat split.
  - rewrite (getitem_undotted _ _ _ _ Hn Hdot).
    unfold between_watcher_calls. rewrite Hget. reflexivity.
  - apply hget_fresh. unfold L. lia.
  - unfold Settings_keys. rewrite (node_keys _ _ _ _ _ _ _ Hn1 Hd1).
    rewrite dict_keys_app. reflexivity.
  - unfold Settings___contains__. rewrite Hdot.
    rewrite (node_contains _ _ _ _ _ _ _ Hn1 Hd1).
    rewrite <- (dict_set_absent es k (VRef (S L)) Hm), dict_mem_set_same.
    reflexivity.
  - unfold Settings___len__. rewrite (node_len _ _ _ _ _ _ _ Hn1 Hd1).
    rewrite length_app. simpl. rewrite Nat.add_1_r. reflexivity.
  - eapply (getitem_stored_node
              (Settings___watcher_on (Settings___watcher_off s)) h1 doc);
      eauto.
    rewrite dict_get_app_absent by auto. simpl.
    rewrite String.eqb_refl. reflexivity.
Qed.

Lemma getitem_stores_missing_key_witness :
  exists m h1,
    let s1 :=
      Settings___watcher_on (Settings___watcher_off (fst empty_store)) in
    Settings___getitem__ (fst empty_store) "k" (snd empty_store)
    = SRet (VRef m) s1 h1
    /\ hget (snd empty_store) m = None
    /\ Settings_keys (fst empty_store) h1 = Ret (dict_keys [] ++ ["k"]) h1
    /\ Settings___contains__ (fst empty_store) "k" h1 = Ret true h1
    /\ Settings___len__ (fst empty_store) h1
       = Ret (S (List.length (@nil (string * value)))) h1
    /\ Settings___getitem__ s1 "k" h1 = SRet (VRef m) s1 h1.
Proof.
  apply (getitem_stores_missing_key (fst empty_store) (snd empty_store) 0 []
           VNone (VStr EmptyString) (VBool false) "k");
    reflexivity.
Defined.

(** X5: Reading an undotted key that holds a plain mapping, one that is not
    the document of the store and has each key once and no private attribute
    name of the proxy among its keys, returns a new object at every read: two
    reads in a row give two different objects, neither of which existed
    before its read, both showing the entries of the mapping. *)
Theorem getitem_mapping_new_proxy_each_time (s : Settings_obj) (h : heap)
  (doc l : loc) (es ds : list (string * value)) (p pn ro : value)
  (a : string) :
  hget h (_Settings__storage s)
  = Some (OStorage (mkStorage (VRef doc) p pn ro)) ->
  hget h doc = Some (ODict es) ->
  PyStr.has_dot a = false ->
  dict_get es a = Some (VRef l) ->
  hget h l = Some (ODict ds) -> l <> doc ->
  (forall key, In key (dict_keys ds) -> is_private key = false) ->
  NoDup (dict_keys ds) ->
  exists m1 h1 m2 h2,
    let s1 := Settings___watcher_on (Settings___watcher_off s) in
    Settings___getitem__ s a h = SRet (VRef m1) s1 h1
    /\ Settings___getitem__ s1 a h1 = SRet (VRef m2) s1 h2
    /\ m1 <> m2
    /\ hget h m1 = None /\ hget h1 m2 = None
    /\ mapping_view h2 (VRef m1) = Some ds
    /\ mapping_view h2 (VRef m2) = Some ds.
Proof.
  intros Hn Hd Hdot Hk Hl Hld Hpriv Hnd.
  set (root := _Settings__storage s) in *.
  pose proof (hget_bound _ _ _ Hn) as HnL.
  pose proof (hget_bound _ _ _ Hd) as HdL.
  pose proof (hget_bound _ _ _ Hl) as HlL.
  assert (Hrd : root <> doc) by congruence.
  destruct (node_get_wrap h root doc l es ds p pn ro a Hn Hd Hk Hl Hld
              Hpriv Hnd)
    as (h1 & E1 & Hlen1 & Hm1 & Hmb1 & Hd1 & Hfr1).
  set (L := List.length h) in *.
  set (es1 := after_copy a (dict_keys ds) es L) in *.
  assert (Hn1 : hget h1 root = Some (OStorage (mkStorage (VRef doc) p pn ro)))
    by (rewrite Hfr1; auto).
  assert (Hk1 : exists l1, dict_get es1 a = Some (VRef l1)
                           /\ hget h1 l1 = Some (ODict ds) /\ l1 <> doc).
  { unfold es1, after_copy. destruct (dict_keys ds).
    - exists l. repeat split; auto. rewrite Hfr1; auto.
    - destruct (String.eqb a EmptyString).
      + exists l. repeat split; auto. rewrite Hfr1; auto.
      + exists L. rewrite dict_get_set_same. repeat split; auto. lia. }
  destruct Hk1 as (l1 & Hk1 & Hl1 & Hl1d).
  destruct (node_get_wrap h1 root doc l1 es1 ds p pn ro a Hn1 Hd1 Hk1 Hl1 Hl1d
              Hpriv Hnd)
    as (h2 & E2 & Hlen2 & Hm2 & Hmb2 & Hd2 & Hfr2).
  rewrite Hlen1 in *.
  exists (S L), h1, (S (S (S L))), h2. cbv zeta.
  assert (Hget1 : Settings___getitem__ s a h
                  = SRet (VRef (S L))
                         (Settings___watcher_on (Settings___watcher_off s))
                         h1).
  { rewrite (getitem_undotted _ _ _ _ Hn Hdot).
    unfold between_watcher_calls. fold root.
    unfold Storage___getitem__. rewrite E1. reflexivity. }
  assert (Hget2 : Settings___getitem__
                    (Settings___watcher_on (Settings___watcher_off s)) a h1
                  = SRet (VRef (S (S (S L))))
                         (Settings___watcher_on (Settings___watcher_off s))
                         h2).
  { rewrite (getitem_undotted
               (Settings___watcher_on (Settings___watcher_off s))
               _ _ _ Hn1 Hdot).
    unfold between_watcher_calls.
    change (_Settings__storage
              (Settings___watcher_on (Settings___watcher_off s)))
      with root.
    unfold Storage___getitem__. rewrite E2. reflexivity. }
  repeat split; auto.
  - lia.
  - apply hget_fresh. unfold L. lia.
  - apply hget_fresh. lia.
  - unfold mapping_view. rewrite (Hfr2 (S L)) by lia. rewrite Hm1.
    cbv beta iota delta [_Storage__storage].
    rewrite (Hfr2 L) by lia. rewrite Hmb1. reflexivity.
  - unfold mapping_view. rewrite Hm2.
    cbv beta iota delta [_Storage__storage].
    rewrite Hmb2. reflexivity.
Qed.

Lemma getitem_mapping_new_proxy_each_time_witness :
  exists m1 h1 m2 h2,
    let s1 :=
      Settings___watcher_on
        (Settings___watcher_off (fst readonly_nested_store)) in
    Settings___getitem__ (fst readonly_nested_store) "foo"
                         (snd readonly_nested_store)
    = SRet (VRef m1) s1 h1
    /\ Settings___getitem__ s1 "foo" h1 = SRet (VRef m2) s1 h2
    /\ m1 <> m2
    /\ hget (snd readonly_nested_store) m1 = None /\ hget h1 m2 = None
    /\ mapping_view h2 (VRef m1) = Some [("bar", VInt 1)]
    /\ mapping_view h2 (VRef m2) = Some [("bar", VInt 1)].
Proof.
  apply (getitem_mapping_new_proxy_each_time (fst readonly_nested_store)
           (snd readonly_nested_store) 1 0 [("foo", VRef 0)]
           [("bar", VInt 1)] VNone (VStr EmptyString) (VBool true) "foo");
    try reflexivity.
  - discriminate.
  - intros key [<- | []]; reflexivity.
  - repeat constructor; simpl; tauto.
Defined.

(** ** Chained and dotted access *)

(** X6: A write through the proxy that a read of a missing key has returned
    reaches the document: after [s[a][b] = v] the document holds, under [a],
    a plain mapping with the one entry [(b, v)].  The read-only flag of the
    store plays no part. *)
Theorem chained_write_reaches_document (s : Settings_obj) (h : heap)
  (doc : loc) (es : list (string * value)) (p pn ro : value) (a b : string)
  (v : value) :
  hget h (_Settings__storage s)
  = Some (OStorage (mkStorage (VRef doc) p pn ro)) ->
  hget h doc = Some (ODict es) ->
  PyStr.has_dot a = false -> a <> EmptyString ->
  dict_mem es a = false ->
  is_private b = false ->
  exists h2 mb,
    then_setitem (Settings___getitem__ s a h) b v
    = SRet tt (Settings___watcher_on (Settings___watcher_off s)) h2
    /\ hget h mb = None
    /\ hget h2 doc = Some (ODict (es ++ [(a, VRef mb)]))
    /\ hget h2 mb = Some (ODict [(b, v)]).
Proof.
  intros Hn Hd Hdot Hne Hm Hpb.
  set (L := List.length h).
  pose proof (hget_bound _ _ _ Hn) as HnL.
  pose proof (hget_bound _ _ _ Hd) as HdL.
  assert (Hget : Storage___getitem__ (_Settings__storage s) a h
                 = Ret (VRef (S L)) (vivified h doc es a)).
  { eapply node_get_vivify; eauto.
    left. unfold dict_mem in Hm. destruct (dict_get es a); congruence. }
  set (h1 := vivified h doc es a) in *.
  assert (Hd1 : hget h1 doc = Some (ODict (dict_set es a (VRef (S L))))).
  { unfold h1, vivified.
    rewrite hget_hset_same by (rewrite !length_app_one; lia). reflexivity. }
  assert (Hm1 : hget h1 (S L)
                = Some (OStorage (mkStorage (VRef L) (VRef doc) (VStr a)
                                            (VBool false)))).
  { unfold h1, vivified, L. repeat heap_step. reflexivity. }
  assert (Hb1 : hget h1 L = Some (ODict [])).
  { unfold h1, vivified, L. repeat heap_step. reflexivity. }
  destruct (node_set_spec h1 (S L) L [] (VRef doc) (VStr a) false Hm1 Hb1
              ltac:(right; exists doc; do 2 eexists; repeat split; eauto; lia)
              b v Hpb eq_refl)
    as (h2 & E2 & Hlen2 & Hb2 & Hfr2 & Hpar2).
  specialize (Hpar2 doc _ a eq_refl eq_refl Hd1).
  assert (Ea : String.eqb a EmptyString = false)
    by (apply String.eqb_neq; auto).
  rewrite Ea, dict_set_idem, dict_set_absent in Hpar2 by auto.
  exists h2, L. repeat split; auto.
  - rewrite (getitem_undotted _ _ _ _ Hn Hdot).
    unfold between_watcher_calls. rewrite Hget.
    unfold then_setitem. rewrite (py_setitem_node _ _ _ _ _ Hm1).
    unfold Storage___setitem__. rewrite E2. reflexivity.
  - apply hget_fresh. unfold L. lia.
Qed.

Lemma chained_write_reaches_document_witness :
  exists h2 mb,
    then_setitem
      (Settings___getitem__ (fst readonly_nested_store) "new"
                            (snd readonly_nested_store)) "k" (VInt 3)
    = SRet tt
        (Settings___watcher_on
           (Settings___watcher_off (fst readonly_nested_store))) h2
    /\ hget (snd readonly_nested_store) mb = None
    /\ hget h2 1 = Some (ODict ([("foo", VRef 0)] ++ [("new", VRef mb)]))
    /\ hget h2 mb = Some (ODict [("k", VInt 3)]).
Proof.
  apply (chained_write_reaches_document (fst readonly_nested_store)
           (snd readonly_nested_store) 1 [("foo", VRef 0)] VNone
           (VStr EmptyString) (VBool true) "new" "k" (VInt 3));
    try reflexivity.
  discriminate.
Defined.

(** X7: [s[a + "." + b]] does what [s[a][b]] does: the same value or exception
    and the same heap.  Only the watcher flag can differ: the dotted read
    leaves it off when the second subscription raises. *)
Theorem dotted_read_is_chained_read (s : Settings_obj) (h : heap)
  (a b : string) :
  PyStr.has_dot a = false -> PyStr.has_dot b = false ->
  Settings___getitem__ s (a ++ String PyStr.dot b)%string h
  = as_one_call s (then_getitem (Settings___getitem__ s a h) b).
Proof.
  intros Ha Hb. unfold Settings___getitem__, between_watcher_calls.
  rewrite length_dotted. cbn [getitem_helper].
  rewrite has_dot_dotted, head_dotted, rest_dotted, Ha, Hb by auto.
  unfold bind.
  destruct (py_getitem (VRef (_Settings__storage s)) a h) as [d h1|e h1|];
    cbn [then_getitem as_one_call]; auto.
  destruct (py_getitem d b h1) as [v h2|e h2|]; reflexivity.
Qed.

Lemma dotted_read_is_chained_read_witness :
  Settings___getitem__ (fst scalar_store) "a.b" (snd scalar_store)
  = as_one_call (fst scalar_store)
      (then_getitem
         (Settings___getitem__ (fst scalar_store) "a" (snd scalar_store))
         "b").
Proof.
  apply (dotted_read_is_chained_read (fst scalar_store) (snd scalar_store)
           "a" "b"); reflexivity.
Defined.

(** X8: For an undotted name that is not an instance attribute, on a constructed
    store, [Settings.__getattr__] does what [Settings.__getitem__] does and
    [Settings.__setattr__] what [Settings.__setitem__] does. *)
Theorem attribute_access_is_item_access (s : Settings_obj) (h : heap)
  (st : Storage_obj) (k : string) (v : value) :
  hget h (_Settings__storage s) = Some (OStorage st) ->
  PyStr.has_dot k = false ->
  existsb (String.eqb k) (self_dict s) = false ->
  existsb (String.eqb "_Settings__storage") (self_dict s) = true ->
  Settings___getattr__ s k h = Settings___getitem__ s k h
  /\ Settings___setattr__ s k v h = Settings___setitem__ s k v h.
Proof.
  intros Hn Hdot Hattr Hinit. split.
  - unfold Settings___getattr__. rewrite Hattr.
    rewrite (getitem_undotted _ _ _ _ Hn Hdot). reflexivity.
  - unfold Settings___setattr__, Settings___setitem__.
    rewrite Hattr, Hinit, Hdot. reflexivity.
Qed.

Lemma attribute_access_is_item_access_witness :
  Settings___getattr__ (fst readonly_nested_store) "foo"
                       (snd readonly_nested_store)
  = Settings___getitem__ (fst readonly_nested_store) "foo"
                         (snd readonly_nested_store)
  /\ Settings___setattr__ (fst readonly_nested_store) "foo" (VInt 1)
                          (snd readonly_nested_store)
     = Settings___setitem__ (fst readonly_nested_store) "foo" (VInt 1)
                            (snd readonly_nested_store).
Proof.
  apply (attribute_access_is_item_access (fst readonly_nested_store)
           (snd readonly_nested_store)
           (mkStorage (VRef 1) VNone (VStr EmptyString) (VBool true))
           "foo" (VInt 1));
    reflexivity.
Defined.

(** ** Scalars on the path *)

Lemma py_getitem_scalar v k h : scalar v -> py_getitem v k h = Exc TypeError h.
Proof. destruct v; simpl; try contradiction; reflexivity. Qed.

Lemma py_setitem_scalar v k x h :
  scalar v -> py_setitem v k x h = Exc TypeError h.
Proof. destruct v; simpl; try contradiction; reflexivity. Qed.

Lemma truthy_scalar v h : scalar v -> truthy v h = Ret (scalar_truth v) h.
Proof. destruct v; simpl; try contradiction; reflexivity. Qed.

Lemma node_get_scalar h n b es p pn ro k v :
  hget h n = Some (OStorage (mkStorage (VRef b) p pn ro)) ->
  hget h b = Some (ODict es) ->
  dict_get es k = Some v -> scalar v ->
  Storage___getitem__ n k h = Ret v h.
Proof.
  intros Hn Hb Hk Hs. unfold Storage___getitem__.
  eapply node_get_value; eauto;
    destruct v; simpl in Hs; try contradiction; discriminate.
Qed.

(** X9: When the first segment holds a scalar (a boolean, an integer or a
    string), reading any path below it raises [TypeError]; the heap is
    untouched and the watcher flag is left off. *)
Theorem getitem_below_scalar_raises (s : Settings_obj) (h : heap) (doc : loc)
  (es : list (string * value)) (p pn ro : value) (a r : string) (v : value) :
  hget h (_Settings__storage s)
  = Some (OStorage (mkStorage (VRef doc) p pn ro)) ->
  hget h doc = Some (ODict es) ->
  PyStr.has_dot a = false ->
  dict_get es a = Some v -> scalar v ->
  Settings___getitem__ s (a ++ String PyStr.dot r)%string h
  = SExc TypeError (Settings___watcher_off s) h.
Proof.
  intros Hn Hd Ha Hk Hs.
  unfold Settings___getitem__, between_watcher_calls.
  rewrite length_dotted. cbn [getitem_helper].
  rewrite has_dot_dotted, head_dotted, rest_dotted by auto.
  rewrite (bind_Ret _ _ _ _ _
             (eq_trans (py_getitem_node _ _ _ _ Hn)
                       (node_get_scalar _ _ _ _ _ _ _ _ _ Hn Hd Hk Hs))).
  destruct (PyStr.has_dot r).
  - rewrite (bind_Exc _ _ _ _ _ (py_getitem_scalar _ _ _ Hs)). reflexivity.
  - rewrite (py_getitem_scalar _ _ _ Hs). reflexivity.
Qed.

Lemma getitem_below_scalar_raises_witness :
  Settings___getitem__ (fst scalar_store) "a.b.c" (snd scalar_store)
  = SExc TypeError (Settings___watcher_off (fst scalar_store))
         (snd scalar_store).
Proof.
  apply (getitem_below_scalar_raises (fst scalar_store) (snd scalar_store) 0
           [("a", VInt 5)] VNone (VStr EmptyString) (VBool false)
           "a" "b.c" (VInt 5));
    reflexivity.
Defined.

(** X10: In a store that is not read-only, a two-segment write whose first
    segment [a] is undotted, is not a private attribute name of the proxy and
    holds a scalar, the second segment being undotted too: a true scalar
    makes the write raise [TypeError] with nothing changed; a false one
    ([False], [0], the empty string) is replaced without notice by a new
    mapping with the one entry. *)
Theorem setitem_below_scalar (s : Settings_obj) (h : heap) (doc : loc)
  (es : list (string * value)) (a b : string) (v x : value) :
  root_over s h doc es false ->
  PyStr.has_dot a = false -> PyStr.has_dot b = false ->
  is_private a = false ->
  dict_get es a = Some v -> scalar v ->
  if scalar_truth v
  then Settings___setitem__ s (a ++ String PyStr.dot b)%string x h
       = SExc TypeError (Settings___watcher_off s) h
  else Settings___setitem__ s (a ++ String PyStr.dot b)%string x h
       = SRet tt (Settings___watcher_on (Settings___watcher_off s))
              (hset (hset (h ++ [ODict []]) (List.length h) (ODict [(b, x)]))
                    doc (ODict (dict_set es a (VRef (List.length h))))).
Proof.
  intros [Hn Hd] Ha Hb Hpa Hk Hs.
  unfold Settings___setitem__, between_watcher_calls.
  rewrite has_dot_dotted, head_dotted, rest_dotted, length_dotted by auto.
  rewrite (bind_Ret _ _ _ _ _
             (node_get_scalar _ _ _ _ _ _ _ _ _ Hn Hd Hk Hs)).
  pose proof (hget_bound _ _ _ Hn) as HnL.
  pose proof (hget_bound _ _ _ Hd) as HdL.
  cbn [setitem_helper]. rewrite Hb.
  unfold or_new_mapping.
  destruct (scalar_truth v) eqn:Et.
  - unfold bind. rewrite (truthy_scalar _ _ Hs), Et.
    cbv beta iota delta [ret]. rewrite (py_setitem_scalar _ _ _ _ Hs).
    reflexivity.
  - unfold bind. rewrite (truthy_scalar _ _ Hs), Et.
    cbv beta iota delta [ret alloc].
    rewrite (py_setitem_dict _ _ [] b x (hget_app_new h (ODict []))).
    cbn [dict_set].
    set (h2 := hset (h ++ [ODict []]) (List.length h) (ODict [(b, x)])).
    assert (Hn2 : hget h2 (_Settings__storage s)
                  = Some (OStorage (mkStorage (VRef doc) VNone
                                              (VStr EmptyString)
                                              (VBool false)))).
    { unfold h2. rewrite hget_hset_other by lia.
      rewrite hget_app_lt by lia. exact Hn. }
    assert (Hd2 : hget h2 doc = Some (ODict es)).
    { unfold h2. rewrite hget_hset_other by lia.
      rewrite hget_app_lt by lia. exact Hd. }
    unfold Storage___setitem__.
    rewrite (node_set_root h2 _ doc es VNone (VStr EmptyString) (VBool false)
               Hn2 Hd2 a _ eq_refl Hpa (or_introl eq_refl)).
    reflexivity.
Qed.

Lemma setitem_below_scalar_witness :
  Settings___setitem__ (fst scalar_store) "a.b" (VInt 1) (snd scalar_store)
  = SExc TypeError (Settings___watcher_off (fst scalar_store))
         (snd scalar_store).
Proof.
  apply (setitem_below_scalar (fst scalar_store) (snd scalar_store) 0
           [("a", VInt 5)] "a" "b" (VInt 5) (VInt 1));
    try reflexivity; split; reflexivity.
Defined.

(** ** Dotted writes of three and more segments *)

Lemma py_getitem_dict_missing h l es k :
  hget h l = Some (ODict es) -> dict_get es k = None ->
  py_getitem (VRef l) k h = Exc (KeyError k) h.
Proof.
  intros Hl Hk. unfold py_getitem. run.
  eapply raw_getitem_missing; eauto.
Qed.

(** X11: A write of three or more segments whose first segment is not stored
    always fails: [s[a + "." + b + "." + r] = v] raises [KeyError(b)], for any
    rest [r], any value and any read-only flag; the watcher flag is left off
    and [a] has become a key of the store. *)
Theorem setitem_deep_missing_head_raises (s : Settings_obj) (h : heap)
  (doc : loc) (es : list (string * value)) (p pn ro : value)
  (a b r : string) (v : value) :
  hget h (_Settings__storage s)
  = Some (OStorage (mkStorage (VRef doc) p pn ro)) ->
  hget h doc = Some (ODict es) ->
  PyStr.has_dot a = false -> PyStr.has_dot b = false ->
  dict_mem es a = false ->
  exists h1,
    Settings___setitem__ s
      (a ++ String PyStr.dot (b ++ String PyStr.dot r))%string v h
    = SExc (KeyError b) (Settings___watcher_off s) h1
    /\ Settings_keys s h1 = Ret (dict_keys es ++ [a]) h1.
Proof.
  intros Hn Hd Ha Hb Hm.
  set (L := List.length h).
  pose proof (hget_bound _ _ _ Hn) as HnL.
  pose proof (hget_bound _ _ _ Hd) as HdL.
  assert (Hget : Storage___getitem__ (_Settings__storage s) a h
                 = Ret (VRef (S L)) (vivified h doc es a)).
  { eapply node_get_vivify; eauto.
    left. unfold dict_mem in Hm. destruct (dict_get es a); congruence. }
  set (hv := vivified h doc es a) in *.
  assert (Hlen : List.length hv = S (S L))
    by (unfold hv, vivified; rewrite hset_length, !length_app_one; auto).
  assert (Hm1 : hget hv (S L)
                = Some (OStorage (mkStorage (VRef L) (VRef doc) (VStr a)
                                            (VBool false))))
    by (unfold hv, vivified, L; repeat heap_step; reflexivity).
  assert (Hb1 : hget hv L = Some (ODict []))
    by (unfold hv, vivified, L; repeat heap_step; reflexivity).
  assert (Hn1 : hget hv (_Settings__storage s)
                = Some (OStorage (mkStorage (VRef doc) p pn ro))).
  { unfold hv, vivified. rewrite hget_hset_other by congruence.
    rewrite !hget_app_lt; auto. rewrite length_app_one; lia. }
  assert (Hd1 : hget hv doc = Some (ODict (es ++ [(a, VRef (S L))]))).
  { unfold hv, vivified.
    rewrite hget_hset_same by (rewrite !length_app_one; lia).
    rewrite dict_set_absent by auto. reflexivity. }
  exists (hv ++ [ODict []]). split.
  - unfold Settings___setitem__, between_watcher_calls.
    rewrite has_dot_dotted, head_dotted, rest_dotted, length_dotted by auto.
    rewrite (bind_Ret _ _ _ _ _ Hget).
    assert (Hh : forall n,
              setitem_helper (S n) (VRef (S L))
                             (b ++ String PyStr.dot r)%string v hv
              = Exc (KeyError b) (hv ++ [ODict []])).
    { intros n. cbn [setitem_helper].
      rewrite has_dot_dotted, head_dotted by auto.
      rewrite (bind_Ret _ _ _ _ _
                 (or_new_mapping_node _ _ _ _ _ _ _ Hm1 Hb1)).
      apply bind_Exc. apply bind_Exc.
      apply (py_getitem_dict_missing _ _ []); auto.
      apply hget_app_new. }
    rewrite (bind_Exc _ _ _ _ _ (Hh _)). reflexivity.
  - unfold Settings_keys.
    rewrite (node_keys (hv ++ [ODict []]) _ doc (es ++ [(a, VRef (S L))])
               p pn ro).
    + rewrite dict_keys_app. reflexivity.
    + apply hget_app_old; auto.
    + apply hget_app_old; auto.
Qed.

Lemma setitem_deep_missing_head_raises_witness :
  exists h1,
    Settings___setitem__ (fst readonly_nested_store) "x.y.z.w" (VInt 1)
                         (snd readonly_nested_store)
    = SExc (KeyError "y")
           (Settings___watcher_off (fst readonly_nested_store)) h1
    /\ Settings_keys (fst readonly_nested_store) h1
       = Ret (dict_keys [("foo", VRef 0)] ++ ["x"]) h1.
Proof.
  apply (setitem_deep_missing_head_raises (fst readonly_nested_store)
           (snd readonly_nested_store) 1 [("foo", VRef 0)] VNone
           (VStr EmptyString) (VBool true) "x" "y" "z.w" (VInt 1));
    reflexivity.
Defined.

(** ** Two-segment round trips *)

Section ThroughMapping.

Variables (s : Settings_obj) (h : heap) (doc l : loc).
Variables (es ds : list (string * value)) (p pn ro : value) (a b : string).
Hypothesis Hn :
  hget h (_Settings__storage s)
  = Some (OStorage (mkStorage (VRef doc) p pn ro)).
Hypothesis Hd : hget h doc = Some (ODict es).
Hypothesis Ha : PyStr.has_dot a = false.
Hypothesis Hb : PyStr.has_dot b = false.
Hypothesis Hk : dict_get es a = Some (VRef l).
Hypothesis Hl : hget h l = Some (ODict ds).
Hypothesis Hld : l <> doc.
Hypothesis Hpriv : forall key, In key (dict_keys ds) -> is_private key = false.
Hypothesis Hnd : NoDup (dict_keys ds).

Lemma read_through_mapping v :
  dict_get ds b = Some v -> scalar v ->
  exists h2,
    Settings___getitem__ s (a ++ String PyStr.dot b)%string h
    = SRet v (Settings___watcher_on (Settings___watcher_off s)) h2.
Proof.
  intros Hv Hs.
  destruct (node_get_wrap h _ doc l es ds p pn ro a Hn Hd Hk Hl Hld Hpriv Hnd)
    as (h1 & E1 & Hlen1 & Hm1 & Hmb1 & _).
  exists h1.
  unfold Settings___getitem__, between_watcher_calls.
  rewrite length_dotted. cbn [getitem_helper].
  rewrite has_dot_dotted, head_dotted, rest_dotted, Hb by auto.
  rewrite (bind_Ret _ _ _ _ _ (eq_trans (py_getitem_node _ _ _ _ Hn) E1)).
  rewrite (py_getitem_node _ _ _ _ Hm1).
  rewrite (node_get_scalar _ _ _ _ _ _ _ _ _ Hm1 Hmb1 Hv Hs). reflexivity.
Qed.

Lemma contains_through_mapping :
  dict_mem ds b = true ->
  exists h2,
    Settings___contains__ s (a ++ String PyStr.dot b)%string h = Ret true h2.
Proof.
  intros Hv.
  destruct (node_get_wrap h _ doc l es ds p pn ro a Hn Hd Hk Hl Hld Hpriv Hnd)
    as (h1 & E1 & Hlen1 & Hm1 & Hmb1 & _).
  exists h1.
  unfold Settings___contains__.
  rewrite has_dot_dotted, head_dotted, rest_dotted, length_dotted by auto.
  rewrite (bind_Ret _ _ _ _ _ (node_contains _ _ _ _ _ _ _ Hn Hd _)).
  unfold dict_mem at 1. rewrite Hk.
  unfold Storage___getitem__. rewrite (bind_Ret _ _ _ _ _ E1).
  cbn [contains_helper]. rewrite Hb.
  assert (Hor : or_new_mapping (VRef (S (List.length h))) h1
                = Ret (VRef (S (List.length h))) h1).
  { rewrite (or_new_mapping_node _ _ _ _ _ _ _ Hm1 Hmb1).
    destruct ds; [discriminate | reflexivity]. }
  rewrite (bind_Ret _ _ _ _ _ Hor).
  rewrite (py_contains_node _ _ _ _ _ _ _ _ Hm1 Hmb1), Hv. reflexivity.
Qed.

End ThroughMapping.

(** X12: A two-segment write into a store that is not read-only and has no key
    [a] is read back: after [s[a + "." + b] = v], for a scalar [v],
    [s[a + "." + b]] returns [v]. *)
Theorem dotted_write_reads_back (s : Settings_obj) (h : heap) (doc : loc)
  (es : list (string * value)) (a b : string) (v : value) :
  root_over s h doc es false ->
  dict_mem es a = false ->
  PyStr.has_dot a = false -> PyStr.has_dot b = false ->
  is_private a = false -> is_private b = false ->
  scalar v ->
  exists s1 h1 s2 h2,
    Settings___setitem__ s (a ++ String PyStr.dot b)%string v h
    = SRet tt s1 h1
    /\ Settings___getitem__ s1 (a ++ String PyStr.dot b)%string h1
       = SRet v s2 h2.
Proof.
  intros Hroot Hm Ha Hb Hpa Hpb Hs.
  destruct (setitem_new_branch s h doc es a b v Hroot Hm Ha Hb Hpa)
    as (h1 & l & E1 & [Hn1 Hd1] & Hl1 & Hld).
  set (s1 := Settings___watcher_on (Settings___watcher_off s)) in *.
  destruct (read_through_mapping s1 h1 doc l _ [(b, v)] _ _ _ a b Hn1 Hd1 Ha Hb)
    with (v := v) as (h2 & E2); auto.
  - rewrite dict_get_app_absent by auto. simpl.
    rewrite String.eqb_refl. reflexivity.
  - intros key [<- | []]; auto.
  - repeat constructor; simpl; tauto.
  - simpl. rewrite String.eqb_refl. reflexivity.
  - exists s1, h1, (Settings___watcher_on (Settings___watcher_off s1)), h2.
    split; auto.
Qed.

Lemma dotted_write_reads_back_witness :
  exists s1 h1 s2 h2,
    Settings___setitem__ (fst empty_store) "db.port" (VInt 5432)
                         (snd empty_store)
    = SRet tt s1 h1
    /\ Settings___getitem__ s1 "db.port" h1 = SRet (VInt 5432) s2 h2.
Proof.
  apply (dotted_write_reads_back (fst empty_store) (snd empty_store) 0 []
           "db" "port" (VInt 5432));
    try reflexivity.
  split; reflexivity.
Defined.

(** X13: After a two-segment write into a store that is not read-only and has
    no key [a], both segments undotted and neither a private attribute name
    of the proxy, [in] finds both the path and its first segment, whatever
    the value written ([None] included). *)
Theorem dotted_write_is_contained (s : Settings_obj) (h : heap) (doc : loc)
  (es : list (string * value)) (a b : string) (v : value) :
  root_over s h doc es false ->
  dict_mem es a = false ->
  PyStr.has_dot a = false -> PyStr.has_dot b = false ->
  is_private a = false -> is_private b = false ->
  exists s1 h1 h2,
    Settings___setitem__ s (a ++ String PyStr.dot b)%string v h
    = SRet tt s1 h1
    /\ Settings___contains__ s1 a h1 = Ret true h1
    /\ Settings___contains__ s1 (a ++ String PyStr.dot b)%string h1
       = Ret true h2.
Proof.
  intros Hroot Hm Ha Hb Hpa Hpb.
  destruct (setitem_new_branch s h doc es a b v Hroot Hm Ha Hb Hpa)
    as (h1 & l & E1 & [Hn1 Hd1] & Hl1 & Hld).
  set (s1 := Settings___watcher_on (Settings___watcher_off s)) in *.
  assert (Hk : dict_get (es ++ [(a, VRef l)]) a = Some (VRef l)).
  { rewrite dict_get_app_absent by auto. simpl.
    rewrite String.eqb_refl. reflexivity. }
  destruct (contains_through_mapping s1 h1 doc l _ [(b, v)] _ _ _ a b
              Hn1 Hd1 Ha Hb Hk Hl1 Hld) as (h2 & E2).
  - intros key [<- | []]; auto.
  - repeat constructor; simpl; tauto.
  - unfold dict_mem. simpl. rewrite String.eqb_refl. reflexivity.
  - exists s1, h1, h2. repeat split; auto.
    unfold Settings___contains__. rewrite Ha.
    change (_Settings__storage s1) with (_Settings__storage s).
    rewrite (node_contains _ _ _ _ _ _ _ Hn1 Hd1).
    unfold dict_mem. rewrite Hk. reflexivity.
Qed.

Lemma dotted_write_is_contained_witness :
  exists s1 h1 h2,
    Settings___setitem__ (fst empty_store) "a.b" VNone (snd empty_store)
    = SRet tt s1 h1
    /\ Settings___contains__ s1 "a" h1 = Ret true h1
    /\ Settings___contains__ s1 "a.b" h1 = Ret true h2.
Proof.
  apply (dotted_write_is_contained (fst empty_store) (snd empty_store) 0 []
           "a" "b" VNone);
    try reflexivity.
  split; reflexivity.
Defined.

(** ** Order and size of the store *)

(** X14: An allowed write (the store not read-only, or the key not yet
    stored) under an undotted key that is not a private attribute name of the
    proxy keeps the order of the keys: the key of an entry that is
    overwritten stays where it is, and a new key goes last; [len] grows by
    one exactly for a new key, and [items()] shows the value as it was
    written and the other entries as they were. *)
Theorem setitem_keeps_key_order (s : Settings_obj) (h : heap) (doc : loc)
  (es : list (string * value)) (ro : bool) (k : string) (v : value) :
  root_over s h doc es ro ->
  PyStr.has_dot k = false -> is_private k = false ->
  ro && dict_mem es k = false ->
  exists h1,
    Settings___setitem__ s k v h
    = SRet tt (Settings___watcher_on (Settings___watcher_off s)) h1
    /\ Settings_keys s h1
       = Ret (if dict_mem es k then dict_keys es else dict_keys es ++ [k]) h1
    /\ Settings___len__ s h1
       = Ret (if dict_mem es k then List.length es else S (List.length es)) h1
    /\ (exists items, Settings_items s h1 = Ret items h1
                      /\ dict_get items k = Some v
                      /\ forall k', k' <> k ->
                                    dict_get items k' = dict_get es k').
Proof.
  intros [Hn Hd] Hdot Hpriv Hro.
  set (root := _Settings__storage s) in *.
  assert (Hrd : root <> doc) by congruence.
  assert (Hset : Storage___setitem__ root k v h
                 = Ret tt (hset h doc (ODict (dict_set es k v)))).
  { eapply node_set_root; eauto. destruct ro; auto. }
  set (h1 := hset h doc (ODict (dict_set es k v))) in *.
  assert (Hn1 : hget h1 root
                = Some (OStorage (mkStorage (VRef doc) VNone
                                            (VStr EmptyString) (VBool ro))))
    by (unfold h1; rewrite hget_hset_other by auto; exact Hn).
  assert (Hd1 : hget h1 doc = Some (ODict (dict_set es k v)))
    by (unfold h1; apply hget_hset_same; eapply hget_bound; eauto).
  exists h1. repeat split.
  - unfold Settings___setitem__, between_watcher_calls.
    rewrite Hdot. fold root. rewrite Hset. reflexivity.
  - unfold Settings_keys. fold root.
    rewrite (node_keys _ _ _ _ _ _ _ Hn1 Hd1).
    destruct (dict_mem es k) eqn:Em.
    + rewrite dict_keys_set_present; auto.
    + rewrite dict_set_absent, dict_keys_app; auto.
  - unfold Settings___len__. fold root.
    rewrite (node_len _ _ _ _ _ _ _ Hn1 Hd1).
    destruct (dict_mem es k) eqn:Em.
    + f_equal. transitivity (List.length (dict_keys (dict_set es k v))).
      * unfold dict_keys. rewrite length_map. reflexivity.
      * rewrite dict_keys_set_present by auto.
        unfold dict_keys. apply length_map.
    + rewrite dict_set_absent, length_app by auto. simpl.
      rewrite Nat.add_1_r. reflexivity.
  - exists (dict_set es k v). repeat split.
    + unfold Settings_items, Storage_items, load_storage. fold root.
      run. reflexivity.
    + apply dict_get_set_same.
    + intros k' Hne. apply dict_get_set_other. auto.
Qed.

Lemma setitem_keeps_key_order_witness :
  exists h1,
    Settings___setitem__ (fst scalar_store) "a" (VInt 6) (snd scalar_store)
    = SRet tt
        (Settings___watcher_on (Settings___watcher_off (fst scalar_store)))
        h1
    /\ Settings_keys (fst scalar_store) h1
       = Ret (if dict_mem [("a", VInt 5)] "a" then dict_keys [("a", VInt 5)]
              else dict_keys [("a", VInt 5)] ++ ["a"]) h1
    /\ Settings___len__ (fst scalar_store) h1
       = Ret (if dict_mem [("a", VInt 5)] "a"
              then List.length [("a", VInt 5)]
              else S (List.length [("a", VInt 5)])) h1
    /\ (exists items, Settings_items (fst scalar_store) h1 = Ret items h1
                      /\ dict_get items "a" = Some (VInt 6)
                      /\ forall k', k' <> "a" ->
                                    dict_get items k'
                                    = dict_get [("a", VInt 5)] k').
Proof.
  apply (setitem_keeps_key_order (fst scalar_store) (snd scalar_store) 0
           [("a", VInt 5)] false "a" (VInt 6));
    try reflexivity.
  split; reflexivity.
Defined.

(** ** Getting around the read-only flag *)

(** X15: The read-only flag can be switched off through the item interface: in a
    read-only store [s["_Storage__readonly"] = False] returns, and after it
    an undotted stored key can be overwritten. *)
Theorem readonly_can_be_switched_off (s : Settings_obj) (h : heap) (doc : loc)
  (es : list (string * value)) (k : string) (v : value) :
  root_over s h doc es true ->
  PyStr.has_dot k = false -> is_private k = false ->
  dict_mem es k = true ->
  exists s1 h1 s2 h2,
    Settings___setitem__ s "_Storage__readonly" (VBool false) h
    = SRet tt s1 h1
    /\ root_over s1 h1 doc es false
    /\ Settings___setitem__ s1 k v h1 = SRet tt s2 h2
    /\ hget h2 doc = Some (ODict (dict_set es k v)).
Proof.
  intros [Hn Hd] Hdot Hpriv Hmem.
  set (root := _Settings__storage s) in *.
  assert (Hrd : root <> doc) by congruence.
  pose proof (hget_bound _ _ _ Hn) as HnL.
  pose proof (hget_bound _ _ _ Hd) as HdL.
  set (st' := mkStorage (VRef doc) VNone (VStr EmptyString) (VBool false)).
  set (h1 := hset h root (OStorage st')).
  assert (E1 : Storage___setitem__ root "_Storage__readonly" (VBool false) h
               = Ret tt h1).
  { unfold Storage___setitem__.
    rewrite (node_set_private _ _ _ _ _ _ Hn "_Storage__readonly"
               (VBool false) eq_refl).
    reflexivity. }
  assert (Hn1 : hget h1 root = Some (OStorage st'))
    by (unfold h1; apply hget_hset_same; auto).
  assert (Hd1 : hget h1 doc = Some (ODict es))
    by (unfold h1; rewrite hget_hset_other by auto; exact Hd).
  set (s1 := Settings___watcher_on (Settings___watcher_off s)).
  exists s1, h1, (Settings___watcher_on (Settings___watcher_off s1)),
    (hset h1 doc (ODict (dict_set es k v))).
  repeat split; auto.
  - unfold Settings___setitem__, between_watcher_calls.
    cbn [PyStr.has_dot]. simpl. fold root. rewrite E1. reflexivity.
  - unfold Settings___setitem__, between_watcher_calls. rewrite Hdot.
    change (_Settings__storage s1) with root.
    unfold Storage___setitem__.
    rewrite (node_set_root h1 root doc es VNone (VStr EmptyString)
               (VBool false) Hn1 Hd1 k v eq_refl Hpriv (or_introl eq_refl)).
    reflexivity.
  - apply hget_hset_same. unfold h1. rewrite hset_length. auto.
Qed.

Lemma readonly_can_be_switched_off_witness :
  exists s1 h1 s2 h2,
    Settings___setitem__ (fst readonly_nested_store) "_Storage__readonly"
                         (VBool false) (snd readonly_nested_store)
    = SRet tt s1 h1
    /\ root_over s1 h1 1 [("foo", VRef 0)] false
    /\ Settings___setitem__ s1 "foo" (VInt 7) h1 = SRet tt s2 h2
    /\ hget h2 1 = Some (ODict (dict_set [("foo", VRef 0)] "foo" (VInt 7))).
Proof.
  apply (readonly_can_be_switched_off (fst readonly_nested_store)
           (snd readonly_nested_store) 1 [("foo", VRef 0)] "foo" (VInt 7));
    try reflexivity.
  split; reflexivity.
Defined.

(** ** Dotted writes into a read-only store *)

(** X16: In a read-only store a two-segment write under an undotted key [a]
    that is not stored and is not a private attribute name of the proxy
    fails, the second segment being undotted: reading the first segment has
    stored an empty proxy under it, so the final assignment meets a stored
    key and raises the read-only [KeyError].  The key stays in the store, as
    its last key, holding an object that shows no entries. *)
Theorem readonly_dotted_write_new_head_raises (s : Settings_obj) (h : heap)
  (doc : loc) (es : list (string * value)) (a b : string) (v : value) :
  root_over s h doc es true ->
  dict_mem es a = false ->
  PyStr.has_dot a = false -> PyStr.has_dot b = false ->
  is_private a = false ->
  exists h1 m,
    Settings___setitem__ s (a ++ String PyStr.dot b)%string v h
    = SExc (KeyError read_only_msg) (Settings___watcher_off s) h1
    /\ hget h1 doc = Some (ODict (es ++ [(a, VRef m)]))
    /\ mapping_view h1 (VRef m) = Some []
    /\ Settings_keys s h1 = Ret (dict_keys es ++ [a]) h1.
Proof.
  intros [Hn Hd] Hm Ha Hb Hpa.
  set (L := List.length h).
  set (root := _Settings__storage s) in *.
  pose proof (hget_bound _ _ _ Hn) as HnL.
  pose proof (hget_bound _ _ _ Hd) as HdL.
  assert (Hrd : root <> doc) by congruence.
  assert (Hget : Storage___getitem__ root a h
                 = Ret (VRef (S L)) (vivified h doc es a)).
  { eapply node_get_vivify; eauto.
    left. unfold dict_mem in Hm. destruct (dict_get es a); congruence. }
  set (hv := vivified h doc es a) in *.
  assert (Hlen : List.length hv = S (S L))
    by (unfold hv, vivified; rewrite hset_length, !length_app_one; auto).
  assert (Hn1 : hget hv (S L)
                = Some (OStorage (mkStorage (VRef L) (VRef doc) (VStr a)
                                            (VBool false))))
    by (unfold hv, vivified, L; repeat heap_step; reflexivity).
  assert (Hb1 : hget hv L = Some (ODict []))
    by (unfold hv, vivified, L; repeat heap_step; reflexivity).
  assert (Hr1 : hget hv root
                = Some (OStorage (mkStorage (VRef doc) VNone
                                            (VStr EmptyString) (VBool true)))).
  { unfold hv, vivified. rewrite hget_hset_other by congruence.
    rewrite !hget_app_lt; auto. rewrite length_app_one; lia. }
  assert (Hd1 : hget hv doc = Some (ODict (es ++ [(a, VRef (S L))]))).
  { unfold hv, vivified.
    rewrite hget_hset_same by (rewrite !length_app_one; lia).
    rewrite dict_set_absent by auto. reflexivity. }
  assert (Hnew : hget (hv ++ [ODict []]) (S (S L)) = Some (ODict []))
    by (apply hget_app_eq; auto).
  set (h4 := hset (hv ++ [ODict []]) (S (S L)) (ODict (dict_set [] b v))).
  assert (Hh : setitem_helper
                 (S (String.length a + String.length b)) (VRef (S L)) b v hv
               = Ret (VRef (S (S L))) h4).
  { eapply setitem_helper_leaf; eauto.
    - rewrite (or_new_mapping_node _ _ _ _ _ _ _ Hn1 Hb1), Hlen.
      reflexivity.
    - apply py_setitem_dict; auto. }
  assert (Hfr4 : forall l', l' < S (S L) -> hget h4 l' = hget hv l').
  { intros l' Hl'. unfold h4. rewrite hget_hset_other by lia.
    apply hget_app_lt. lia. }
  assert (Hr4 : hget h4 root
                = Some (OStorage (mkStorage (VRef doc) VNone
                                            (VStr EmptyString) (VBool true))))
    by (rewrite Hfr4 by lia; exact Hr1).
  assert (Hd4 : hget h4 doc = Some (ODict (es ++ [(a, VRef (S L))])))
    by (rewrite Hfr4 by lia; exact Hd1).
  assert (Hin : dict_mem (es ++ [(a, VRef (S L))]) a = true).
  { rewrite <- (dict_set_absent es a (VRef (S L)) Hm).
    apply dict_mem_set_same. }
  exists h4, (S L). repeat split.
  - unfold Settings___setitem__, between_watcher_calls.
    rewrite has_dot_dotted, head_dotted, rest_dotted, length_dotted by auto.
    fold root. rewrite (bind_Ret _ _ _ _ _ Hget).
    rewrite (bind_Ret _ _ _ _ _ Hh).
    unfold Storage___setitem__.
    rewrite (node_set_blocked h4 root doc _ VNone (VStr EmptyString)
               (VBool true) Hr4 Hd4 a _ Hpa eq_refl Hin).
    reflexivity.
  - exact Hd4.
  - unfold mapping_view. rewrite (Hfr4 (S L)) by lia. rewrite Hn1.
    cbv beta iota delta [_Storage__storage].
    rewrite (Hfr4 L) by lia. rewrite Hb1. reflexivity.
  - unfold Settings_keys. fold root.
    rewrite (node_keys _ _ _ _ _ _ _ Hr4 Hd4).
    rewrite dict_keys_app. reflexivity.
Qed.

Lemma readonly_dotted_write_new_head_raises_witness :
  exists h1 m,
    Settings___setitem__ (fst readonly_nested_store) "new.key" (VInt 1)
                         (snd readonly_nested_store)
    = SExc (KeyError read_only_msg)
           (Settings___watcher_off (fst readonly_nested_store)) h1
    /\ hget h1 1 = Some (ODict ([("foo", VRef 0)] ++ [("new", VRef m)]))
    /\ mapping_view h1 (VRef m) = Some []
    /\ Settings_keys (fst readonly_nested_store) h1
       = Ret (dict_keys [("foo", VRef 0)] ++ ["new"]) h1.
Proof.
  apply (readonly_dotted_write_new_head_raises (fst readonly_nested_store)
           (snd readonly_nested_store) 1 [("foo", VRef 0)] "new" "key"
           (VInt 1));
    try reflexivity.
  split; reflexivity.
Defined.

(** X17: In a read-only store, a two-segment write [s[a + "." + c] = v] where
    [a] holds a plain mapping with entries raises the read-only [KeyError],
    but only after the value has been written: the document then holds,
    under [a], a mapping with the old entries and [v] under [c].  Nothing is
    rolled back.  Here [a] and [c] are undotted and not private attribute
    names of the proxy, [a] is not empty, and the mapping is not the document
    and has each key once and no private attribute name among its keys. *)
Theorem readonly_dotted_write_commits_then_raises (s : Settings_obj)
  (h : heap) (doc l : loc) (es ds : list (string * value)) (a c : string)
  (v : value) :
  root_over s h doc es true ->
  dict_get es a = Some (VRef l) ->
  hget h l = Some (ODict ds) -> l <> doc -> ds <> [] ->
  (forall key, In key (dict_keys ds) -> is_private key = false) ->
  NoDup (dict_keys ds) ->
  PyStr.has_dot a = false -> PyStr.has_dot c = false ->
  a <> EmptyString ->
  is_private a = false -> is_private c = false ->
  exists h1 mb,
    Settings___setitem__ s (a ++ String PyStr.dot c)%string v h
    = SExc (KeyError read_only_msg) (Settings___watcher_off s) h1
    /\ hget h mb = None
    /\ hget h1 doc = Some (ODict (dict_set es a (VRef mb)))
    /\ hget h1 mb = Some (ODict (dict_set ds c v)).
Proof.
  intros [Hn Hd] Hk Hl Hld Hne Hpriv Hnd Ha Hc Hae Hpa Hpc.
  set (L := List.length h).
  set (root := _Settings__storage s) in *.
  assert (HdL : doc < L) by (unfold L; eapply hget_bound; eauto).
  assert (HrL : root < L) by (unfold L; eapply hget_bound; eauto).
  assert (Hrd : root <> doc) by congruence.
  assert (Ea : String.eqb a EmptyString = false)
    by (apply String.eqb_neq; auto).
  destruct (node_get_wrap h root doc l es ds _ _ _ a Hn Hd Hk Hl Hld Hpriv Hnd)
    as (h' & E & Hlen' & Hm' & Hmb' & Hd' & Hfr').
  fold L in E, Hlen', Hm', Hmb', Hd', Hfr'.
  assert (HX : after_copy a (dict_keys ds) es L = dict_set es a (VRef L)).
  { unfold after_copy. rewrite Ea.
    destruct ds; [congruence | reflexivity]. }
  rewrite HX in Hd'.
  destruct (node_set_spec h' (S L) L ds (VRef doc) (VStr a) false Hm' Hmb'
              ltac:(right; exists doc; do 2 eexists; repeat split; eauto; lia)
              c v Hpc eq_refl)
    as (h1 & E1 & Hlen1 & Hmb1 & Hfr1 & Hpar1).
  specialize (Hpar1 doc _ a eq_refl eq_refl Hd').
  rewrite Ea, dict_set_idem in Hpar1.
  assert (Hor : or_new_mapping (VRef (S L)) h' = Ret (VRef (S L)) h').
  { rewrite (or_new_mapping_node _ _ _ _ _ _ _ Hm' Hmb').
    destruct ds; congruence. }
  assert (Hr1 : hget h1 root
                = Some (OStorage (mkStorage (VRef doc) VNone
                                            (VStr EmptyString) (VBool true)))).
  { rewrite Hfr1 by (try congruence; lia). rewrite Hfr' by auto. exact Hn. }
  exists h1, L. repeat split; auto.
  - unfold Settings___setitem__, between_watcher_calls.
    rewrite has_dot_dotted, head_dotted, rest_dotted, length_dotted by auto.
    fold root. unfold Storage___getitem__.
    rewrite (bind_Ret _ _ _ _ _ E).
    rewrite (bind_Ret _ _ _ _ _
               (setitem_helper_leaf _ _ _ _ _ _ _ _ Hc Hor
                  (eq_trans (py_setitem_node _ _ _ _ _ Hm') E1))).
    unfold Storage___setitem__.
    rewrite (node_set_blocked h1 root doc _ VNone (VStr EmptyString)
               (VBool true) Hr1 Hpar1 a _ Hpa eq_refl
               (dict_mem_set_same _ _ _)).
    reflexivity.
  - apply hget_fresh. unfold L. lia.
Qed.

Lemma readonly_dotted_write_commits_then_raises_witness :
  exists h1 mb,
    Settings___setitem__ (fst readonly_nested_store) "foo.bar" (VInt 2)
                         (snd readonly_nested_store)
    = SExc (KeyError read_only_msg)
           (Settings___watcher_off (fst readonly_nested_store)) h1
    /\ hget (snd readonly_nested_store) mb = None
    /\ hget h1 1 = Some (ODict (dict_set [("foo", VRef 0)] "foo" (VRef mb)))
    /\ hget h1 mb = Some (ODict (dict_set [("bar", VInt 1)] "bar" (VInt 2))).
Proof.
  apply (readonly_dotted_write_commits_then_raises
           (fst readonly_nested_store) (snd readonly_nested_store) 1 0
           [("foo", VRef 0)] [("bar", VInt 1)] "foo" "bar" (VInt 2));
    try reflexivity; try discriminate.
  - split; reflexivity.
  - intros key [<- | []]; reflexivity.
  - repeat constructor; simpl; tauto.
Defined.

(** ** A three-segment write under a stored mapping *)

(** An inner level of the helper of [__setitem__]. *)
Lemma setitem_helper_step fuel d r sub built h h1 h2 h3 h4 item val :
  PyStr.has_dot item = true ->
  or_new_mapping d h = Ret r h1 ->
  py_getitem r (PyStr.head item) h1 = Ret sub h2 ->
  setitem_helper fuel sub (PyStr.rest item) val h2 = Ret built h3 ->
  py_setitem r (PyStr.head item) built h3 = Ret tt h4 ->
  setitem_helper (S fuel) d item val h = Ret r h4.
Proof.
  intros Hdot E1 E2 E3 E4. cbn [setitem_helper]. rewrite Hdot.
  unfold bind. rewrite E1, E2, E3, E4. reflexivity.
Qed.

(** X18: In a store that is not read-only, where the first segment [a] holds
    a plain mapping with entries but without the key [b], a three-segment
    write [s[a + "." + b + "." + c] = v] goes through: the document then
    holds, under [a], a proxy over a mapping that has the old entries
    followed by [b], and [b] holds a mapping with the one entry [(c, v)].
    Here the three segments are undotted, [a] and [b] are not private
    attribute names of the proxy, and the mapping is not the document and
    has each key once and no private attribute name among its keys. *)
Theorem setitem_three_segments_under_mapping (s : Settings_obj) (h : heap)
  (doc l : loc) (es ds : list (string * value)) (a b c : string) (v : value) :
  root_over s h doc es false ->
  dict_get es a = Some (VRef l) ->
  hget h l = Some (ODict ds) -> l <> doc -> ds <> [] ->
  (forall key, In key (dict_keys ds) -> is_private key = false) ->
  NoDup (dict_keys ds) ->
  dict_mem ds b = false ->
  PyStr.has_dot a = false -> PyStr.has_dot b = false ->
  PyStr.has_dot c = false ->
  is_private a = false -> is_private b = false ->
  exists h2 m mb l2,
    Settings___setitem__ s
      (a ++ String PyStr.dot (b ++ String PyStr.dot c))%string v h
    = SRet tt (Settings___watcher_on (Settings___watcher_off s)) h2
    /\ hget h2 doc = Some (ODict (dict_set es a (VRef m)))
    /\ hget h2 m
       = Some (OStorage (mkStorage (VRef mb) (VRef doc) (VStr a)
                                   (VBool false)))
    /\ hget h2 mb = Some (ODict (ds ++ [(b, VRef l2)]))
    /\ hget h2 l2 = Some (ODict [(c, v)]).
Proof.
  intros [Hn Hd] Hk Hl Hld Hne Hpriv Hnd Hmb Ha Hb Hc Hpa Hpb.
  set (L := List.length h).
  set (root := _Settings__storage s) in *.
  assert (HdL : doc < L) by (unfold L; eapply hget_bound; eauto).
  assert (HrL : root < L) by (unfold L; eapply hget_bound; eauto).
  assert (Hrd : root <> doc) by congruence.
  (* reading [a] wraps the mapping *)
  destruct (node_get_wrap h root doc l es ds _ _ _ a Hn Hd Hk Hl Hld Hpriv Hnd)
    as (h' & E & Hlen' & Hm' & Hmb' & Hd' & Hfr').
  fold L in E, Hlen', Hm', Hmb', Hd', Hfr'.
  set (X := after_copy a (dict_keys ds) es L) in *.
  assert (Hor : or_new_mapping (VRef (S L)) h' = Ret (VRef (S L)) h').
  { rewrite (or_new_mapping_node _ _ _ _ _ _ _ Hm' Hmb').
    destruct ds; congruence. }
  (* reading [b] through the wrapper creates an empty proxy *)
  assert (Hgetb : Storage___getitem__ (S L) b h'
                  = Ret (VRef (S (S (S L)))) (vivified h' L ds b)).
  { unfold Storage___getitem__.
    rewrite (node_get_vivify h' (S L) L ds _ _ _ Hm' Hmb' b), Hlen'; auto.
    left. unfold dict_mem in Hmb. destruct (dict_get ds b); congruence. }
  set (hv := vivified h' L ds b) in *.
  assert (Hlenv : List.length hv = S (S (S (S L))))
    by (unfold hv, vivified; rewrite hset_length, !length_app_one; lia).
  assert (Hfrv : forall l', l' < S (S L) -> l' <> L ->
                            hget hv l' = hget h' l').
  { intros l' H1 H2. unfold hv, vivified.
    rewrite hget_hset_other by auto.
    rewrite !hget_app_lt by (rewrite ?length_app_one; lia). reflexivity. }
  assert (HLv : hget hv L
                = Some (ODict (dict_set ds b (VRef (S (S (S L))))))).
  { unfold hv, vivified.
    rewrite hget_hset_same by (rewrite !length_app_one; lia).
    rewrite Hlen'. reflexivity. }
  assert (HPv : hget hv (S (S (S L)))
                = Some (OStorage (mkStorage (VRef (S (S L))) (VRef L) (VStr b)
                                            (VBool false)))).
  { unfold hv, vivified. rewrite hget_hset_other by lia.
    rewrite hget_app_eq by (rewrite length_app_one; lia).
    rewrite Hlen'. reflexivity. }
  assert (HPb : hget hv (S (S L)) = Some (ODict [])).
  { unfold hv, vivified. rewrite hget_hset_other by lia.
    rewrite hget_app_lt by (rewrite length_app_one; lia).
    apply hget_app_eq. auto. }
  (* the last level builds a new mapping *)
  set (l2 := S (S (S (S L)))).
  set (h4 := hset (hv ++ [ODict []]) l2 (ODict (dict_set [] c v))).
  assert (Hleaf : forall n,
            setitem_helper (S n) (VRef (S (S (S L)))) c v hv
            = Ret (VRef l2) h4).
  { intros n. eapply setitem_helper_leaf; eauto.
    - rewrite (or_new_mapping_node _ _ _ _ _ _ _ HPv HPb), Hlenv.
      reflexivity.
    - apply py_setitem_dict. apply hget_app_eq. auto. }
  assert (Hfr4 : forall l', l' < l2 -> hget h4 l' = hget hv l').
  { intros l' Hl'. unfold h4. rewrite hget_hset_other by lia.
    apply hget_app_lt. lia. }
  assert (Hl24 : hget h4 l2 = Some (ODict [(c, v)])).
  { unfold h4. apply hget_hset_same. rewrite length_app_one. lia. }
  (* the wrapper gets the new mapping under [b] *)
  assert (Hm4 : hget h4 (S L)
                = Some (OStorage (mkStorage (VRef L) (VRef doc) (VStr a)
                                            (VBool false)))).
  { rewrite Hfr4 by (unfold l2; lia). rewrite Hfrv by lia. exact Hm'. }
  assert (HL4 : hget h4 L
                = Some (ODict (dict_set ds b (VRef (S (S (S L)))))))
    by (rewrite Hfr4 by (unfold l2; lia); exact HLv).
  assert (Hd4 : hget h4 doc = Some (ODict X)).
  { rewrite Hfr4 by (unfold l2; lia). rewrite Hfrv by lia. exact Hd'. }
  destruct (node_set_spec h4 (S L) L _ (VRef doc) (VStr a) false Hm4 HL4
              ltac:(right; exists doc; do 2 eexists; repeat split; eauto; lia)
              b (VRef l2) Hpb eq_refl)
    as (h5 & E5 & Hlen5 & HL5 & Hfr5 & Hpar5).
  specialize (Hpar5 doc X a eq_refl eq_refl Hd4).
  rewrite dict_set_idem, dict_set_absent in HL5 by auto.
  assert (Hlen4 : List.length h4 = S l2)
    by (unfold h4; rewrite hset_length, length_app_one; unfold l2; lia).
  assert (Hr5 : hget h5 root
                = Some (OStorage (mkStorage (VRef doc) VNone
                                            (VStr EmptyString) (VBool false)))).
  { rewrite Hfr5 by (try congruence; lia).
    rewrite Hfr4 by (unfold l2; lia). rewrite Hfrv by lia.
    rewrite Hfr' by auto. exact Hn. }
  assert (Hhelper : forall n,
            setitem_helper (S (S n)) (VRef (S L))
                           (b ++ String PyStr.dot c)%string v h'
            = Ret (VRef (S L)) h5).
  { intros n.
    eapply (setitem_helper_step (S n) _ _ (VRef (S (S (S L)))) (VRef l2)).
    - apply has_dot_dotted.
    - exact Hor.
    - rewrite head_dotted by auto.
      rewrite (py_getitem_node _ _ _ _ Hm'). exact Hgetb.
    - rewrite rest_dotted by auto. apply Hleaf.
    - rewrite head_dotted by auto.
      rewrite (py_setitem_node _ _ _ _ _ Hm4). exact E5. }
  exists (hset h5 doc
            (ODict (dict_set (if String.eqb a EmptyString then X
                              else dict_set X a (VRef L)) a (VRef (S L))))),
    (S L), L, l2.
  assert (Hdl5 : doc < List.length h5) by lia.
  repeat split.
  - unfold Settings___setitem__, between_watcher_calls.
    rewrite has_dot_dotted, head_dotted, rest_dotted, !length_dotted by auto.
    fold root. unfold Storage___getitem__.
    rewrite (bind_Ret _ _ _ _ _ E).
    rewrite Nat.add_succ_r.
    rewrite (bind_Ret _ _ _ _ _ (Hhelper _)).
    unfold Storage___setitem__.
    rewrite (node_set_root h5 root doc _ VNone (VStr EmptyString)
               (VBool false) Hr5 Hpar5 a (VRef (S L)) eq_refl Hpa
               (or_introl eq_refl)).
    reflexivity.
  - rewrite hget_hset_same by auto. do 2 f_equal.
    unfold X, after_copy.
    destruct (dict_keys ds) eqn:Ek;
      [destruct ds; [congruence | discriminate]|].
    destruct (String.eqb a EmptyString); rewrite ?dict_set_idem; reflexivity.
  - rewrite hget_hset_other by lia.
    rewrite Hfr5 by (try congruence; lia). exact Hm4.
  - rewrite hget_hset_other by lia. exact HL5.
  - rewrite hget_hset_other by (unfold l2; lia).
    rewrite Hfr5; [exact Hl24 | unfold l2; lia |].
    intros E'. injection E' as E'. unfold l2 in E'. lia.
Qed.

Lemma setitem_three_segments_under_mapping_witness :
  exists h2 m mb l2,
    Settings___setitem__ (fst nested_store) "foo.baz.x" (VInt 9)
                         (snd nested_store)
    = SRet tt (Settings___watcher_on (Settings___watcher_off
                                        (fst nested_store))) h2
    /\ hget h2 1 = Some (ODict (dict_set [("foo", VRef 0)] "foo" (VRef m)))
    /\ hget h2 m
       = Some (OStorage (mkStorage (VRef mb) (VRef 1) (VStr "foo")
                                   (VBool false)))
    /\ hget h2 mb = Some (ODict ([("bar", VInt 1)] ++ [("baz", VRef l2)]))
    /\ hget h2 l2 = Some (ODict [("x", VInt 9)]).
Proof.
  apply (setitem_three_segments_under_mapping (fst nested_store)
           (snd nested_store) 1 0 [("foo", VRef 0)] [("bar", VInt 1)]
           "foo" "baz" "x" (VInt 9));
    try reflexivity; try discriminate.
  - split; reflexivity.
  - intros key [<- | []]; reflexivity.
  - repeat constructor; simpl; tauto.
Defined.

(** ** Splitting a key *)

(** X19: A key with a dot is its first segment, a dot and the rest; the first
    segment has no dot and the rest is shorter than the key, so the helpers
    that recurse on the rest terminate. *)
Theorem key_decomposition (key : string) :
  PyStr.has_dot key = true ->
  key = (PyStr.head key ++ String PyStr.dot (PyStr.rest key))%string
  /\ PyStr.has_dot (PyStr.head key) = false
  /\ String.length (PyStr.rest key) < String.length key.
Proof.
  intros Hdot. split; [|split; [|apply rest_shorter; auto]].
  - unfold PyStr.head, PyStr.rest.
    induction key as [|c r IH]; simpl in *; try discriminate.
    destruct (Ascii.eqb c PyStr.dot) eqn:Ec.
    + apply Ascii.eqb_eq in Ec; subst c. simpl. rewrite join_split.
      reflexivity.
    + specialize (IH Hdot).
      destruct (PyStr.split r) as [|w ws] eqn:Er.
      * destruct (split_not_nil _ Er).
      * simpl in *. congruence.
  - unfold PyStr.head.
    induction key as [|c r IH]; simpl in *; try discriminate.
    destruct (Ascii.eqb c PyStr.dot) eqn:Ec; auto.
    specialize (IH Hdot).
    destruct (PyStr.split r) as [|w ws] eqn:Er.
    + destruct (split_not_nil _ Er).
    + simpl in *. rewrite Ec. exact IH.
Qed.

Lemma key_decomposition_witness :
  "a.b.c" = (PyStr.head "a.b.c" ++ String PyStr.dot (PyStr.rest "a.b.c"))%string
  /\ PyStr.has_dot (PyStr.head "a.b.c") = false
  /\ String.length (PyStr.rest "a.b.c") < String.length "a.b.c".
Proof. apply (key_decomposition "a.b.c"). reflexivity. Defined.

(** ** Overwriting through a proxy *)

(** X20: An overwrite through the proxy returned for a stored plain mapping
    is never blocked, whatever the read-only flag of the store: after
    [s[a][b] = v] the document holds, under [a], a mapping with the entries
    of the old one and [v] under [b].  Here [a] is undotted and not empty,
    [b] is not a private attribute name of the proxy, and the mapping is not
    the document and has each key once and no private attribute name among
    its keys. *)
Theorem chained_overwrite_ignores_readonly (s : Settings_obj) (h : heap)
  (doc l : loc) (es ds : list (string * value)) (p pn ro : value)
  (a b : string) (v : value) :
  hget h (_Settings__storage s)
  = Some (OStorage (mkStorage (VRef doc) p pn ro)) ->
  hget h doc = Some (ODict es) ->
  dict_get es a = Some (VRef l) ->
  hget h l = Some (ODict ds) -> l <> doc ->
  (forall key, In key (dict_keys ds) -> is_private key = false) ->
  NoDup (dict_keys ds) ->
  PyStr.has_dot a = false -> a <> EmptyString ->
  is_private b = false ->
  exists h2 mb,
    then_setitem (Settings___getitem__ s a h) b v
    = SRet tt (Settings___watcher_on (Settings___watcher_off s)) h2
    /\ hget h mb = None
    /\ hget h2 doc = Some (ODict (dict_set es a (VRef mb)))
    /\ hget h2 mb = Some (ODict (dict_set ds b v)).
Proof.
  intros Hn Hd Hk Hl Hld Hpriv Hnd Ha Hae Hpb.
  set (L := List.length h).
  assert (HdL : doc < L) by (unfold L; eapply hget_bound; eauto).
  assert (Ea : String.eqb a EmptyString = false)
    by (apply String.eqb_neq; auto).
  destruct (node_get_wrap h _ doc l es ds _ _ _ a Hn Hd Hk Hl Hld Hpriv Hnd)
    as (h' & E & Hlen' & Hm' & Hmb' & Hd' & Hfr').
  fold L in E, Hlen', Hm', Hmb', Hd', Hfr'.
  destruct (node_set_spec h' (S L) L ds (VRef doc) (VStr a) false Hm' Hmb'
              ltac:(right; exists doc; do 2 eexists; repeat split; eauto; lia)
              b v Hpb eq_refl)
    as (h1 & E1 & Hlen1 & Hmb1 & Hfr1 & Hpar1).
  specialize (Hpar1 doc _ a eq_refl eq_refl Hd').
  rewrite Ea in Hpar1.
  exists h1, L. repeat split; auto.
  - rewrite (getitem_undotted _ _ _ _ Hn Ha).
    unfold between_watcher_calls, Storage___getitem__. rewrite E.
    unfold then_setitem. rewrite (py_setitem_node _ _ _ _ _ Hm').
    unfold Storage___setitem__. rewrite E1. reflexivity.
  - apply hget_fresh. unfold L. lia.
  - rewrite Hpar1. do 2 f_equal. unfold after_copy.
    destruct (dict_keys ds); rewrite ?Ea, ?dict_set_idem; reflexivity.
Qed.

Lemma chained_overwrite_ignores_readonly_witness :
  exists h2 mb,
    then_setitem
      (Settings___getitem__ (fst readonly_nested_store) "foo"
                            (snd readonly_nested_store)) "bar" (VInt 2)
    = SRet tt
        (Settings___watcher_on
           (Settings___watcher_off (fst readonly_nested_store))) h2
    /\ hget (snd readonly_nested_store) mb = None
    /\ hget h2 1 = Some (ODict (dict_set [("foo", VRef 0)] "foo" (VRef mb)))
    /\ hget h2 mb = Some (ODict (dict_set [("bar", VInt 1)] "bar" (VInt 2))).
Proof.
  apply (chained_overwrite_ignores_readonly (fst readonly_nested_store)
           (snd readonly_nested_store) 1 0 [("foo", VRef 0)]
           [("bar", VInt 1)] VNone (VStr EmptyString) (VBool true)
           "foo" "bar" (VInt 2));
    try reflexivity; try discriminate.
  - intros key [<- | []]; reflexivity.
  - repeat constructor; simpl; tauto.
Defined.

(** ** Siblings under a private attribute name *)

(** C2 fails when the first sibling is named like a private attribute of the
    proxy: after [s["a._Storage__parent_name"] = 1] and [s["a.c"] = 2], both
    of which return, [s["a"]] shows only [c].  The copy loop of the second
    write sends the first entry to the instance dictionary of the new proxy,
    which stays empty and is replaced by a new mapping. *)
Lemma sibling_lost_under_private_name : ~ siblings_kept_for_every_name.
Proof.
  intros H.
  destruct (H "a" "_Storage__parent_name" "c" (VInt 1) (VInt 2)
              eq_refl eq_refl eq_refl ltac:(discriminate))
    as (s1 & h1 & s2 & h2 & r & s3 & h3 & shown & E1 & E2 & E3 & Ev & Hk).
  vm_compute in E1. injection E1 as <- <-.
  vm_compute in E2. injection E2 as <- <-.
  vm_compute in E3. injection E3 as <- _ <-.
  vm_compute in Ev. injection Ev as <-.
  specialize (Hk "_Storage__parent_name"). vm_compute in Hk. discriminate.
Qed.
